(** * weekly_meal_plan_llm_v2.py: a shallow embedding and its properties

    The script is a linear pipeline: load recipe URLs from a text file,
    drop dessert links, de-duplicate, fetch page titles, ask an LLM for a
    dinner plan, e-mail the answer.  This file embeds each stage as an
    executable Rocq function and proves the properties the specification
    states about them.

    Conventions.
    - A Python [str] is a [string] of the Standard Library: the UTF-8
      encoding of the text.  Concatenation, equality, [startswith], [in]
      and [join] are exact on that encoding.  [strip] and [lower] are the
      ASCII part of [str.strip] and [str.lower]: bytes above 127 are left
      alone.
    - A Python exception is a value of [exn]; a call that may raise returns
      a [result].
    - Everything outside the process (environment variables, the recipes
      file, HTTP, SMTP, the clock) is a field of the record [world]; what
      the program does to the outside is recorded in a trace of [event]s. *)

From Stdlib Require Import ZArith Ascii String List Bool Lia DecimalString DecimalZ.
From stdpp Require Import gmap strings list.

Local Open Scope string_scope.
Local Open Scope list_scope.

(** ** Python strings *)

Module PyStr.

(** [str.isspace] on the ASCII range: TAB, LF, VT, FF, CR, the four
    separators FS, GS, RS, US and the space. *)
Definition is_space (c : ascii) : bool :=
  let n := nat_of_ascii c in
  (((9 <=? n) && (n <=? 13)) || ((28 <=? n) && (n <=? 32)))%nat.

Fixpoint lstrip (s : string) : string :=
  match s with
  | EmptyString => EmptyString
  | String c s' => if is_space c then lstrip s' else s
  end.

Fixpoint rstrip (s : string) : string :=
  match s with
  | EmptyString => EmptyString
  | String c s' =>
      match rstrip s' with
      | EmptyString => if is_space c then EmptyString else String c EmptyString
      | r => String c r
      end
  end.

(** [s.strip()] *)
Definition strip (s : string) : string := rstrip (lstrip s).

(** [s.startswith(p)] *)
Definition startswith (s p : string) : bool := String.prefix p s.

(** [k in s] on strings: [k] occurs in [s] as a contiguous substring. *)
Fixpoint contains (k s : string) : bool :=
  String.prefix k s ||
  match s with
  | EmptyString => false
  | String _ s' => contains k s'
  end.

Definition lower_char (c : ascii) : ascii :=
  let n := nat_of_ascii c in
  if ((65 <=? n) && (n <=? 90))%nat then ascii_of_nat (n + 32) else c.

(** [s.lower()] *)
Fixpoint lower (s : string) : string :=
  match s with
  | EmptyString => EmptyString
  | String c s' => String (lower_char c) (lower s')
  end.

(** Truth value of a string: [if s] / [if not s]. *)
Definition truthy (s : string) : bool :=
  match s with EmptyString => false | _ => true end.

(** [sep.join(l)] *)
Fixpoint join (sep : string) (l : list string) : string :=
  match l with
  | [] => EmptyString
  | [x] => x
  | x :: rest => x +:+ sep +:+ join sep rest
  end.

End PyStr.

(** ** De-duplication (load_recipe_urls, lines 88-95) *)

(** The loop [for u in urls: if u not in seen: out.append(u); seen.add(u)],
    with the set [seen] and the list [out] as loop state. *)
Fixpoint dedupe_loop (urls : list string) (seen : gset string)
    (out : list string) : list string :=
  match urls with
  | [] => out
  | u :: rest =>
      if decide (u ∈ seen)
      then dedupe_loop rest seen out
      else dedupe_loop rest ({[u]} ∪ seen) (out ++ [u])
  end.

Definition dedupe (urls : list string) : list string :=
  dedupe_loop urls ∅ [].

(** The specification's wording, "the ordered sequence of first occurrences
    only": the head is kept and every later copy of it is removed. *)
Fixpoint first_occurrences (l : list string) : list string :=
  match l with
  | [] => []
  | u :: rest => u :: filter (λ v, v ≠ u) (first_occurrences rest)
  end.

(** ** Exceptions and results *)

(** The exception classes that occur.  The message of an exception the
    script raises itself is its own; the message of a library's exception
    is abridged. *)
Inductive exn : Type :=
| RuntimeError (msg : string)
| ValueError (msg : string)
| TypeError (msg : string)
| AttributeError (msg : string)
| HTTPError (status : Z)          (* requests: raise_for_status *)
| LibraryError (what : string).   (* any other Exception of a library or
                                     of the operating system *)

Inductive result (A : Type) : Type :=
| Ok (a : A)
| Raise (e : exn).
Arguments Ok {A} a.
Arguments Raise {A} e.

Definition rbind {A B} (r : result A) (f : A → result B) : result B :=
  match r with
  | Ok a => f a
  | Raise e => Raise e
  end.

Notation "x <- r ;; k" := (rbind r (fun x => k))
  (at level 100, r at next level, right associativity, only parsing).

(** ** urllib.parse.urlparse

    The library function is a field of [world]; this module is an
    executable rendering of CPython 3.11's [urlsplit] and [urlparse] on
    [str] arguments, used where a concrete parser is needed.  The two
    checks the library delegates to [ipaddress] and [unicodedata]
    (a bracketed host must be an IP literal; a non-ASCII netloc must stay
    free of delimiters under NFKC) are the parameter [netloc_valid], which
    is consulted for no other netloc. *)

Record ParseResult : Type := {
  scheme : string;
  netloc : string;
  path : string;
  params : string;
  query : string;
  fragment : string
}.

Module Url.

Definition chr (n : nat) : ascii := ascii_of_nat n.

Definition is_ascii_alpha (c : ascii) : bool :=
  let n := nat_of_ascii c in
  (((65 <=? n) && (n <=? 90)) || ((97 <=? n) && (n <=? 122)))%nat.

Definition is_digit (c : ascii) : bool :=
  let n := nat_of_ascii c in ((48 <=? n) && (n <=? 57))%nat.

(** [scheme_chars]: letters, digits, [+], [-], [.] *)
Definition is_scheme_char (c : ascii) : bool :=
  let n := nat_of_ascii c in
  is_ascii_alpha c || is_digit c || (n =? 43)%nat || (n =? 45)%nat || (n =? 46)%nat.

Fixpoint all_chars (p : ascii → bool) (s : string) : bool :=
  match s with
  | EmptyString => true
  | String c s' => p c && all_chars p s'
  end.

Fixpoint has_char (c : ascii) (s : string) : bool :=
  match s with
  | EmptyString => false
  | String d s' => Ascii.eqb c d || has_char c s'
  end.

(** [url.lstrip(_WHATWG_C0_CONTROL_OR_SPACE)] *)
Fixpoint lstrip_c0 (s : string) : string :=
  match s with
  | EmptyString => EmptyString
  | String c s' => if (nat_of_ascii c <=? 32)%nat then lstrip_c0 s' else s
  end.

(** Removal of [_UNSAFE_URL_BYTES_TO_REMOVE]: TAB, CR, LF. *)
Fixpoint remove_unsafe (s : string) : string :=
  match s with
  | EmptyString => EmptyString
  | String c s' =>
      let n := nat_of_ascii c in
      if ((n =? 9) || (n =? 13) || (n =? 10))%nat
      then remove_unsafe s'
      else String c (remove_unsafe s')
  end.

(** [s.split(c, 1)] when [c] occurs in [s]: the text before the first [c]
    and the text after it. *)
Fixpoint split_once (c : ascii) (s : string) : option (string * string) :=
  match s with
  | EmptyString => None
  | String d s' =>
      if Ascii.eqb c d then Some (EmptyString, s')
      else match split_once c s' with
           | Some (a, b) => Some (String d a, b)
           | None => None
           end
  end.

(** [_splitnetloc(url, 2)] after the two slashes: the text up to the first
    of [/], [?], [#], and the rest from that delimiter on. *)
Fixpoint splitnetloc (s : string) : string * string :=
  match s with
  | EmptyString => (EmptyString, EmptyString)
  | String c s' =>
      let n := nat_of_ascii c in
      if ((n =? 47) || (n =? 63) || (n =? 35))%nat then (EmptyString, s)
      else let '(a, b) := splitnetloc s' in (String c a, b)
  end.

Definition is_ascii_str (s : string) : bool :=
  all_chars (λ c, (nat_of_ascii c <? 128)%nat) s.

(** The last position of [c] in [s], if any, and the first position of [c]
    at or after position [from]. *)
Fixpoint rfind_from (c : ascii) (s : string) (i : nat) : option nat :=
  match s with
  | EmptyString => None
  | String d s' =>
      match rfind_from c s' (S i) with
      | Some j => Some j
      | None => if Ascii.eqb c d then Some i else None
      end
  end.

Fixpoint find_from (c : ascii) (s : string) (from i : nat) : option nat :=
  match s with
  | EmptyString => None
  | String d s' =>
      if (from <=? i)%nat && Ascii.eqb c d then Some i
      else find_from c s' from (S i)
  end.

Definition substr_to (s : string) (i : nat) : string := String.substring 0 i s.
Definition substr_from (s : string) (i : nat) : string :=
  String.substring i (String.length s - i) s.

(** [_splitparams] *)
Definition splitparams (url : string) : string * string :=
  let semi := chr 59 in
  let found :=
    match rfind_from (chr 47) url 0 with
    | Some slash => (true, find_from semi url slash 0)
    | None => (false, find_from semi url 0 0)
    end in
  match found with
  | (_, Some i) => (substr_to url i, substr_from url (S i))
  | (true, None) => (url, EmptyString)
  | (false, None) =>
      (* [i = -1]: [url[:-1], url[0:]]; unreachable from [urlparse], which
         calls [_splitparams] only when a semicolon occurs *)
      (substr_to url (String.length url - 1), url)
  end.

Definition uses_params : list string :=
  [EmptyString; "ftp"; "hdl"; "prospero"; "http"; "imap"; "https"; "shttp";
   "rtsp"; "rtspu"; "sip"; "sips"; "mms"; "sftp"; "tel"].

Section Parser.
Variable netloc_valid : string → bool.

Definition urlsplit (url0 : string)
    : result (string * string * string * string * string) :=
  let url := remove_unsafe (lstrip_c0 url0) in
  let '(scheme, url) :=
    match split_once (chr 58) url with
    | Some (String c0 pre', rest) =>
        if is_ascii_alpha c0 && all_chars is_scheme_char (String c0 pre')
        then (PyStr.lower (String c0 pre'), rest)
        else (EmptyString, url)
    | _ => (EmptyString, url)
    end in
  located <-
    (match url with
    | String a (String b rest) =>
        if ((nat_of_ascii a =? 47) && (nat_of_ascii b =? 47))%nat then
          let '(netloc, url') := splitnetloc rest in
          let lb := has_char (chr 91) netloc in
          let rb := has_char (chr 93) netloc in
          if (lb && negb rb) || (rb && negb lb)
          then Raise (ValueError "Invalid IPv6 URL")
          else if lb && rb && negb (netloc_valid netloc)
          then Raise (ValueError "Invalid IPv6 URL")
          else Ok (netloc, url')
        else Ok (EmptyString, url)
    | _ => Ok (EmptyString, url)
    end) ;;
  let '(netloc, url) := located in
  let '(url, fragment) :=
    match split_once (chr 35) url with
    | Some (a, b) => (a, b)
    | None => (url, EmptyString)
    end in
  let '(url, query) :=
    match split_once (chr 63) url with
    | Some (a, b) => (a, b)
    | None => (url, EmptyString)
    end in
  if negb (is_ascii_str netloc) && negb (netloc_valid netloc)
  then Raise (ValueError "netloc contains invalid characters under NFKC normalization")
  else Ok (scheme, netloc, url, query, fragment).

Definition urlparse (url : string) : result ParseResult :=
  split <- urlsplit url ;;
  let '(scheme, netloc, url, query, fragment) := split in
  let '(url, params) :=
    if bool_decide (scheme ∈ uses_params) && has_char (chr 59) url
    then splitparams url
    else (url, EmptyString) in
  Ok {| scheme := scheme; netloc := netloc; path := url;
        params := params; query := query; fragment := fragment |}.

End Parser.
End Url.

(** ** Values of [resp.json()] *)

(** The Python value [json.loads] builds: [None], [bool], [int], [str],
    [list] and [dict] with string keys.  A [dict] is its list of items; a
    lookup takes the first item with the key.  A JSON number with a
    fraction or an exponent is a [float]; the script only ever asks for its
    truth value, so it is represented by whether it is zero. *)
#[local] Set Warnings "-register-all".
Inductive pyval : Type :=
| PNone
| PBool (b : bool)
| PInt (z : Z)
| PFloat (is_zero : bool)
| PStr (s : string)
| PList (l : list pyval)
| PDict (items : list (string * pyval)).

(** ** The outside world *)

(** [requests.Response], as far as the script reads it. *)
Record response : Type := {
  status_code : Z;
  text : string;
  json : result pyval            (* [resp.json()], which may raise *)
}.

(** A tag of the parse tree: its name, its attributes and [tag.string]. *)
Record tag : Type := {
  tag_name : string;
  tag_attrs : list (string * string);
  tag_string : option string
}.

(** A [BeautifulSoup] object: the tags of the document in document order. *)
Definition soup : Type := list tag.

(** The JSON body of the POST, before [json.dumps]. *)
Record payload : Type := {
  payload_model : string;
  payload_input : list (string * string);   (* role, content *)
  payload_temperature : string
}.

Record post_request : Type := {
  post_url : string;
  post_headers : list (string * string);
  post_data : payload;
  post_timeout : Z
}.

(** [email.message.EmailMessage] with the three headers and the content. *)
Record EmailMessage : Type := {
  msg_from : string;
  msg_to : string;
  msg_subject : string;
  msg_content : string
}.

Inductive smtp_command : Type :=
| SmtpConnect (host : string) (port : Z)    (* smtplib.SMTP(host, port) *)
| SmtpEhlo
| SmtpStartTls
| SmtpLogin (user password : string)
| SmtpSendMessage (msg : EmailMessage)
| SmtpQuit.                                  (* leaving the [with] block *)

(** What the process does to the outside, in order. *)
Inductive event : Type :=
| EPrint (line : string)
| EGet (url : string) (timeout : Z) (headers : list (string * string))
| ESleep (milliseconds : Z)
| EPost (req : post_request)
| ESmtp (c : smtp_command).

Definition trace : Type := list event.

Record world : Type := {
  (* the process environment and the file system *)
  getenv : string → option string;          (* os.getenv(name) *)
  script_recipes_path : string;             (* recipes.txt beside the script *)
  path_exists : string → bool;              (* os.path.exists *)
  open_read : string → result string;       (* the decoded text of the file *)
  today : string;                           (* time.strftime('%Y-%m-%d') *)
  (* library functions *)
  urlparse : string → result ParseResult;
  BeautifulSoup : string → result soup;     (* with "html.parser" *)
  email_policy : EmailMessage → option exn; (* header validation on assignment *)
  (* the network: an answer may depend on what happened before *)
  requests_get : trace → string → result response;
  requests_post : trace → post_request → result response;
  smtp : trace → smtp_command → result unit
}.

(** [os.getenv(name, default)] *)
Definition getenv_or (w : world) (name default : string) : string :=
  match getenv w name with
  | Some v => v
  | None => default
  end.

(** ** Programs with effects: a trace and exceptions *)

Definition M (A : Type) : Type := trace → result A * trace.

Definition ret {A} (a : A) : M A := λ t, (Ok a, t).
Definition raise {A} (e : exn) : M A := λ t, (Raise e, t).
Definition lift {A} (r : result A) : M A := λ t, (r, t).
Definition emit (e : event) : M unit := λ t, (Ok tt, t ++ [e]).

Definition bind {A B} (m : M A) (f : A → M B) : M B :=
  λ t, match m t with
       | (Ok a, t') => f a t'
       | (Raise e, t') => (Raise e, t')
       end.

(** [try: m  except Exception: h] *)
Definition try_except {A} (m : M A) (h : exn → M A) : M A :=
  λ t, match m t with
       | (Ok a, t') => (Ok a, t')
       | (Raise e, t') => h e t'
       end.

(** An outbound call: the event is recorded, then the world answers from
    the history before the call. *)
Definition call {A} (e : event) (answer : trace → result A) : M A :=
  λ t, (answer t, t ++ [e]).

Notation "x <<- m ;; k" := (bind m (fun x => k))
  (at level 100, m at next level, right associativity, only parsing).
Notation "m ;;; k" := (bind m (fun _ => k))
  (at level 100, right associativity, only parsing).

(** ** URL list and filtering (lines 46-95) *)

Definition DEFAULT_URLS : list string := [].

(** The keyword set, in the order it is written; [any] does not depend on
    the order. *)
Definition DESSERT_KEYWORDS : list string :=
  ["cookie"; "cookies"; "cake"; "brownie"; "brownies"; "muffin"; "muffins";
   "banana-bread"; "bananabread"; "banana_bread"; "loaf"; "cupcake"; "cupcakes";
   "slice"; "biscuit"; "biscuits"; "pudding"; "pie"; "tart"; "donut"; "doughnut";
   "fudge"; "ice-cream"; "icecream"; "gelato"; "sweet"; "dessert";
   "chocolate"; "nutella"; "caramel"; "smoothie"].

(** [hay] of [is_probably_sweet_url]. *)
Definition hay_of (p : ParseResult) : string :=
  PyStr.lower (path p +:+ " " +:+ query p).

Definition is_probably_sweet_url (w : world) (url : string) : result bool :=
  p <- urlparse w url ;;
  let hay := hay_of p in
  Ok (existsb (λ k, PyStr.contains k hay) DESSERT_KEYWORDS).

(** The iteration [for line in f] over a file opened in text mode: a line
    ends after LF, CR LF or CR, each read as LF. *)
Definition LF : ascii := ascii_of_nat 10.
Definition CR : ascii := ascii_of_nat 13.
Definition nl : string := String LF EmptyString.

Fixpoint iter_lines_from (cur : string) (s : string) : list string :=
  match s with
  | EmptyString => if PyStr.truthy cur then [cur] else []
  | String c s' =>
      if Ascii.eqb c LF then (cur +:+ nl) :: iter_lines_from EmptyString s'
      else if Ascii.eqb c CR then
        match s' with
        | String c2 s'' =>
            if Ascii.eqb c2 LF
            then (cur +:+ nl) :: iter_lines_from EmptyString s''
            else (cur +:+ nl) :: iter_lines_from EmptyString s'
        | EmptyString => [cur +:+ nl]
        end
      else iter_lines_from (cur +:+ String c EmptyString) s'
  end.

Definition iter_lines (file_text : string) : list string :=
  iter_lines_from EmptyString file_text.

(** Lines 74-78: the stripped lines that are neither empty nor comments. *)
Fixpoint read_loop (lines : list string) : list string :=
  match lines with
  | [] => []
  | line :: rest =>
      let line := PyStr.strip line in
      if negb (PyStr.truthy line) || PyStr.startswith line "#"
      then read_loop rest
      else line :: read_loop rest
  end.

(** Line 82. *)
Definition keep_http (urls : list string) : list string :=
  map PyStr.strip
    (List.filter (λ u, PyStr.truthy u && PyStr.startswith (PyStr.strip u) "http") urls).

(** Line 86: [[u for u in urls if not is_probably_sweet_url(u)]]; the
    first URL the parser rejects ends the comprehension. *)
Fixpoint drop_sweet (w : world) (urls : list string) : result (list string) :=
  match urls with
  | [] => Ok []
  | u :: rest =>
      sweet <- is_probably_sweet_url w u ;;
      rest' <- drop_sweet w rest ;;
      Ok (if sweet then rest' else u :: rest')
  end.

Definition recipes_file_of (w : world) : string :=
  match getenv w "RECIPES_FILE" with
  | Some p => if PyStr.truthy p then p else script_recipes_path w
  | None => script_recipes_path w
  end.

Definition include_sweets_of (w : world) : bool :=
  String.eqb (PyStr.strip (getenv_or w "INCLUDE_SWEETS" EmptyString)) "1".

(** Lines 71-82: the candidate URLs, before the dessert filter and the
    de-duplication. *)
Definition candidate_urls (w : world) : result (list string) :=
  urls <- (if path_exists w (recipes_file_of w)
           then file_text <- open_read w (recipes_file_of w) ;;
                Ok (read_loop (iter_lines file_text))
           else Ok DEFAULT_URLS) ;;
  Ok (keep_http urls).

Definition load_recipe_urls (w : world) : result (list string) :=
  urls <- candidate_urls w ;;
  urls <- (if negb (include_sweets_of w) then drop_sweet w urls else Ok urls) ;;
  Ok (dedupe urls).

(** ** Page titles (lines 97-126) *)

Record LinkMeta : Type := {
  url : string;
  title : string
}.

(** [r.raise_for_status()] of requests: an [HTTPError] for a status from
    400 to 599, nothing otherwise. *)
Definition raise_for_status (r : response) : result unit :=
  if ((400 <=? status_code r) && (status_code r <? 600))%Z
  then Raise (HTTPError (status_code r))
  else Ok tt.

(** [tag.get(name)] *)
Fixpoint attr_get (attrs : list (string * string)) (name : string) : option string :=
  match attrs with
  | [] => None
  | (k, v) :: rest => if String.eqb k name then Some v else attr_get rest name
  end.

(** [soup.find(name, attr=value)]: the first such tag. *)
Definition soup_find (s : soup) (name a value : string) : option tag :=
  List.find (λ t, String.eqb (tag_name t) name &&
                  match attr_get (tag_attrs t) a with
                  | Some v => String.eqb v value
                  | None => false
                  end) s.

(** [soup.title]: the first [title] tag. *)
Definition soup_title (s : soup) : option tag :=
  List.find (λ t, String.eqb (tag_name t) "title") s.

(** Lines 110-114 on a parsed page: [Some t] when a [return] is reached. *)
Definition title_of_soup (s : soup) : option string :=
  let from_title :=
    match soup_title s with
    | Some t =>
        match tag_string t with
        | Some str => if PyStr.truthy str then Some (PyStr.strip str) else None
        | None => None
        end
    | None => None
    end in
  match soup_find s "meta" "property" "og:title" with
  | Some og =>
      match attr_get (tag_attrs og) "content" with
      | Some c => if PyStr.truthy c then Some (PyStr.strip c) else from_title
      | None => from_title
      end
  | None => from_title
  end.

Definition fetch_title (w : world) (url : string) : M string :=
  found <<- try_except
              (r <<- call (EGet url 12 [("User-Agent", "Mozilla/5.0")])
                          (λ t, requests_get w t url) ;;
               _ <<- lift (raise_for_status r) ;;
               s <<- lift (BeautifulSoup w (text r)) ;;
               ret (title_of_soup s))
              (λ _, ret None) ;;
  match found with
  | Some t => ret t
  | None => ret EmptyString
  end.

Fixpoint fetch_each (w : world) (urls : list string) : M (list LinkMeta) :=
  match urls with
  | [] => ret []
  | u :: rest =>
      t <<- fetch_title w u ;;
      emit (ESleep 200) ;;;
      metas <<- fetch_each w rest ;;
      ret ({| url := u; title := t |} :: metas)
  end.

Definition build_link_metas (w : world) (urls : list string) (max_to_fetch : nat)
    : M (list LinkMeta) :=
  metas <<- fetch_each w (take max_to_fetch urls) ;;
  ret (metas ++ map (λ u, {| url := u; title := EmptyString |}) (drop max_to_fetch urls)).

(** ** The LLM call (lines 128-218) *)

(** [str(n)] and [int(s)] on integers.  The interpreter's optional cap on
    the number of digits of such conversions is not part of the model. *)
Definition str_of_int (n : Z) : string := NilEmpty.string_of_int (Z.to_int n).

Fixpoint int_digits (s : string) (acc : Z) (after_digit : bool) : option Z :=
  match s with
  | EmptyString => if after_digit then Some acc else None
  | String c s' =>
      if Url.is_digit c
      then int_digits s' (10 * acc + Z.of_nat (nat_of_ascii c - 48)) true
      else if (nat_of_ascii c =? 95)%nat && after_digit
      then int_digits s' acc false
      else None
  end.

Definition py_int (s : string) : result Z :=
  let bad := Raise (ValueError "invalid literal for int() with base 10") in
  let of_digits (negative : bool) (d : string) :=
    match int_digits d 0 false with
    | Some v => Ok (if negative then (- v)%Z else v)
    | None => bad
    end in
  match PyStr.strip s with
  | String c rest =>
      if (nat_of_ascii c =? 43)%nat then of_digits false rest
      else if (nat_of_ascii c =? 45)%nat then of_digits true rest
      else of_digits false (String c rest)
  | EmptyString => bad
  end.

Definition dq : string := String (ascii_of_nat 34) EmptyString.
Definition em_dash : string := "—".

Definition link_line (m : LinkMeta) : string :=
  if PyStr.truthy (title m)
  then "- " +:+ title m +:+ " " +:+ em_dash +:+ " " +:+ url m
  else "- " +:+ url m.

Definition staples : list string :=
  ["salt"; "pepper"; "oil"; "olive oil"; "vegetable oil";
   "butter"; "flour"; "sugar"; "rice"; "pasta"; "noodles";
   "bread"; "stock cubes"; "soy sauce"; "vinegar";
   "garlic"; "onion"; "lemon"; "water"].

(** The f-string of lines 151-189, before [.strip()]. *)
Definition prompt_template (links_block : string) (meals_per_week : Z) : string :=
  "
You are helping a household with dinner ideas. You will be given a curated list of recipe links (titles included when available).

Produce:

1) Seven *suggestions* for dinners (exactly "
  +:+ str_of_int meals_per_week
  +:+ ").
   For each suggestion:
   - Include the recipe title
   - Include the URL
   - Add ONE short sentence (max ~18 words) summarising what the dish is (e.g., protein + style + key flavour/ingredient).

Rules:
- Choose from the provided links ONLY (do not invent URLs).
- Avoid desserts/sweets and avoid non-recipe pages.
- Keep the tone casual and framed as suggestions (not a strict day-by-day plan).

2) A section titled "
  +:+ dq
  +:+ "Things we'd need to have"
  +:+ dq
  +:+ " with NO quantities.
   - Include only *non-staples* that someone might need to buy specially (e.g., chicken thighs, salmon, fresh herbs, coconut milk).
   - Do NOT include common pantry staples like: "
  +:+ PyStr.join ", " staples
  +:+ ".
   - Do NOT include measurements (no grams/ml/cups/tbsp).
   - Group into exactly these headings:
     - Protein
     - Produce
     - Other
   - If unsure, omit.

Output format (exact):
- Start with a one-line greeting.
- Then a section header: "
  +:+ dq
  +:+ "Suggestions"
  +:+ dq
  +:+ "
- Then suggestions as a numbered list 1.."
  +:+ str_of_int meals_per_week
  +:+ ", each on ONE line:
  "
  +:+ dq
  +:+ "1. <Title> — <URL> — <one-sentence summary>"
  +:+ dq
  +:+ "
- Then a blank line and the header: "
  +:+ dq
  +:+ "Things we'd need to have"
  +:+ dq
  +:+ "
- Then the three group headings with bullet lists.
- Refer to it as "
  +:+ dq
  +:+ "our"
  +:+ dq
  +:+ " recipe list, not "
  +:+ dq
  +:+ "your"
  +:+ dq
  +:+ " recipe list
- Use Australian names for produce, e.g. eggplant, not aubergine 

Recipe links:
"
  +:+ links_block
  +:+ "
".

Definition build_prompt (link_metas : list LinkMeta) (meals_per_week : Z) : string :=
  let links_block := PyStr.join nl (map link_line link_metas) in
  PyStr.strip (prompt_template links_block meals_per_week).

(** Truth value of a Python value. *)
Definition py_truthy (v : pyval) : bool :=
  match v with
  | PNone => false
  | PBool b => b
  | PInt z => negb (Z.eqb z 0)
  | PFloat is_zero => negb is_zero
  | PStr s => PyStr.truthy s
  | PList l => match l with [] => false | _ => true end
  | PDict items => match items with [] => false | _ => true end
  end.

Fixpoint items_get (items : list (string * pyval)) (key : string) : option pyval :=
  match items with
  | [] => None
  | (k, v) :: rest => if String.eqb k key then Some v else items_get rest key
  end.

(** [d.get(key, default)]: only a [dict] has the method. *)
Definition dict_get (d : pyval) (key : string) (default : pyval) : result pyval :=
  match d with
  | PDict items =>
      Ok (match items_get items key with Some v => v | None => default end)
  | _ => Raise (AttributeError "object has no attribute 'get'")
  end.

Fixpoint chars_of (s : string) : list pyval :=
  match s with
  | EmptyString => []
  | String c s' => PStr (String c EmptyString) :: chars_of s'
  end.

(** [for x in v]: a list gives its items, a dict its keys, a string its
    characters (here one item per byte; the loops below fail on the first
    of them in either reading); anything else is not iterable. *)
Definition py_iter (v : pyval) : result (list pyval) :=
  match v with
  | PList l => Ok l
  | PDict items => Ok (map (λ kv, PStr (fst kv)) items)
  | PStr s => Ok (chars_of s)
  | _ => Raise (TypeError "object is not iterable")
  end.

(** [c.get("type") in ("output_text", "text")] *)
Definition is_text_type (v : pyval) : bool :=
  match v with
  | PStr s => String.eqb s "output_text" || String.eqb s "text"
  | _ => false
  end.

(** Lines 210-212, the inner loop, with [chunks] as loop state. *)
Fixpoint content_loop (parts : list pyval) (chunks : list pyval)
    : result (list pyval) :=
  match parts with
  | [] => Ok chunks
  | c :: rest =>
      ty <- dict_get c "type" PNone ;;
      if is_text_type ty
      then t <- dict_get c "text" (PStr EmptyString) ;;
           content_loop rest (chunks ++ [t])
      else content_loop rest chunks
  end.

(** Lines 209-212, the outer loop. *)
Fixpoint output_loop (items : list pyval) (chunks : list pyval)
    : result (list pyval) :=
  match items with
  | [] => Ok chunks
  | item :: rest =>
      content <- dict_get item "content" (PList []) ;;
      parts <- py_iter content ;;
      chunks' <- content_loop parts chunks ;;
      output_loop rest chunks'
  end.

(** [sep.join(chunks)]: every item must be a [str]. *)
Fixpoint strs_of (chunks : list pyval) : result (list string) :=
  match chunks with
  | [] => Ok []
  | PStr s :: rest => l <- strs_of rest ;; Ok (s :: l)
  | _ :: _ => Raise (TypeError "sequence item: expected str instance")
  end.

Definition py_join (sep : string) (chunks : list pyval) : result string :=
  l <- strs_of chunks ;; Ok (PyStr.join sep l).

(** [v.strip()] on a value that need not be a [str]. *)
Definition py_strip (v : pyval) : result string :=
  match v with
  | PStr s => Ok (PyStr.strip s)
  | _ => Raise (AttributeError "object has no attribute 'strip'")
  end.

Definition no_text_error : exn :=
  RuntimeError "OpenAI API returned no text output.".

(** Lines 208-218 on the decoded payload [data]. *)
Definition extract_text (data : pyval) : result string :=
  output <- dict_get data "output" (PList []) ;;
  items <- py_iter output ;;
  chunks <- output_loop items [] ;;
  joined <- py_join nl chunks ;;
  let text := PyStr.strip joined in
  text <- (if negb (PyStr.truthy text)
           then fallback <- dict_get data "output_text" PNone ;;
                py_strip (if py_truthy fallback then fallback else PStr EmptyString)
           else Ok text) ;;
  if negb (PyStr.truthy text) then Raise no_text_error else Ok text.

Definition api_key_error : exn :=
  RuntimeError "OPENAI_API_KEY environment variable must be set.".

Definition call_openai_suggestions (w : world) (link_metas : list LinkMeta)
    (meals_per_week : Z) : M string :=
  let api_key := PyStr.strip (getenv_or w "OPENAI_API_KEY" EmptyString) in
  if negb (PyStr.truthy api_key) then raise api_key_error else
  let model := PyStr.strip (getenv_or w "OPENAI_MODEL" "gpt-5.2") in
  let prompt := build_prompt link_metas meals_per_week in
  let req :=
    {| post_url := "https://api.openai.com/v1/responses";
       post_headers := [("Authorization", "Bearer " +:+ api_key);
                        ("Content-Type", "application/json")];
       post_data := {| payload_model := model;
                       payload_input := [("user", prompt)];
                       payload_temperature := "0.4" |};
       post_timeout := 60 |} in
  resp <<- call (EPost req) (λ t, requests_post w t req) ;;
  if (400 <=? status_code resp)%Z
  then raise (RuntimeError ("OpenAI API error " +:+ str_of_int (status_code resp)
                            +:+ ": " +:+ text resp))
  else
  data <<- lift (json resp) ;;
  lift (extract_text data).

(** ** The e-mail (lines 220-249) *)

Definition email_config_error : exn :=
  RuntimeError "EMAIL_USER, EMAIL_PASS and EMAIL_TO environment variables must be set.".

Definition smtp_do (w : world) (c : smtp_command) : M unit :=
  call (ESmtp c) (λ t, smtp w t c).

(** [with smtplib.SMTP(host, port) as server: body]: the connection is
    opened, the body runs, and QUIT is sent however the body ends. *)
Definition with_smtp (w : world) (host : string) (port : Z) (body : M unit) : M unit :=
  smtp_do w (SmtpConnect host port) ;;;
  outcome <<- try_except (body ;;; ret None) (λ e, ret (Some e)) ;;
  smtp_do w SmtpQuit ;;;
  match outcome with
  | Some e => raise e
  | None => ret tt
  end.

(** [ssl.create_default_context()] touches nothing outside the process and
    is left out; the checks the email package makes when the headers are
    assigned are the world's [email_policy]. *)
Definition send_email (w : world) (body : string) : M unit :=
  let email_user := PyStr.strip (getenv_or w "EMAIL_USER" EmptyString) in
  let email_pass := PyStr.strip (getenv_or w "EMAIL_PASS" EmptyString) in
  let email_to := PyStr.strip (getenv_or w "EMAIL_TO" EmptyString) in
  if negb (PyStr.truthy email_user && PyStr.truthy email_pass && PyStr.truthy email_to)
  then raise email_config_error else
  let smtp_host := PyStr.strip (getenv_or w "SMTP_HOST" "smtp.gmail.com") in
  smtp_port <<- lift (py_int (PyStr.strip (getenv_or w "SMTP_PORT" "587"))) ;;
  let subject_prefix :=
    PyStr.strip (getenv_or w "EMAIL_SUBJECT_PREFIX"
                   "Suggestions for things to eat this week") in
  let subject := subject_prefix +:+ " " +:+ em_dash +:+ " " +:+ today w in
  let msg := {| msg_from := email_user; msg_to := email_to;
                msg_subject := subject; msg_content := body |} in
  match email_policy w msg with
  | Some e => raise e
  | None =>
      with_smtp w smtp_host smtp_port
        (smtp_do w SmtpEhlo ;;;
         smtp_do w SmtpStartTls ;;;
         smtp_do w SmtpEhlo ;;;
         smtp_do w (SmtpLogin email_user email_pass) ;;;
         smtp_do w (SmtpSendMessage msg))
  end.

(** ** main (lines 251-264) *)

Definition no_urls_message : string :=
  "No recipe URLs found. Add URLs to recipes.txt (one per line) or DEFAULT_URLS in the script.".

Definition main (w : world) : M Z :=
  urls <<- lift (load_recipe_urls w) ;;
  match urls with
  | [] => emit (EPrint no_urls_message) ;;; ret 2%Z
  | _ :: _ =>
      meals_per_week <<- lift (py_int (PyStr.strip (getenv_or w "MEALS_PER_WEEK" "7"))) ;;
      metas <<- build_link_metas w urls 60 ;;
      body <<- call_openai_suggestions w metas meals_per_week ;;
      send_email w body ;;;
      ret 0%Z
  end.

(** ** Worlds for the examples *)

Fixpoint env_get (env : list (string * string)) (name : string) : option string :=
  match env with
  | [] => None
  | (k, v) :: rest => if String.eqb k name then Some v else env_get rest name
  end.

(** A machine with the given environment variables, the given text in
    recipes.txt beside the script (if any), and a network that answers
    every title request with [page], every POST with [llm] and every SMTP
    command with [mail]. *)
Definition example_world (env : list (string * string)) (recipes : option string)
    (page : result response) (parsed : result soup)
    (llm : result response) (mail : result unit) : world :=
  {| getenv := env_get env;
     script_recipes_path := "recipes.txt";
     path_exists := λ p, match recipes with
                         | Some _ => String.eqb p "recipes.txt"
                         | None => false
                         end;
     open_read := λ p, match recipes with
                       | Some file_text => Ok file_text
                       | None => Raise (LibraryError "No such file or directory")
                       end;
     today := "2026-01-05";
     urlparse := Url.urlparse (λ _, true);
     BeautifulSoup := λ _, parsed;
     email_policy := λ _, None;
     requests_get := λ _ _, page;
     requests_post := λ _ _, llm;
     smtp := λ _ _, mail |}.

Definition offline {A} : result A := Raise (LibraryError "Network is unreachable").

(** Only a recipes file and an environment; no network. *)
Definition offline_world (env : list (string * string)) (recipes : option string) : world :=
  example_world env recipes offline offline offline offline.

(** ** Vocabulary of the specification *)

(** [s] holds [k] as a contiguous substring. *)
Definition substring_of (k s : string) : Prop :=
  ∃ pre post, s = pre +:+ k +:+ post.

(** [s] is empty or consists of white space only. *)
Definition blank (s : string) : bool := Url.all_chars PyStr.is_space s.

(** The specification's reading of the recipes file: "trim whitespace;
    skip empty lines and lines beginning with #; keep only entries whose
    trimmed value starts with http". *)
Definition http_lines (lines : list string) : list string :=
  List.filter
    (λ u, PyStr.truthy u && negb (PyStr.startswith u "#") && PyStr.startswith u "http")
    (map PyStr.strip lines).


(** The content of the first Open Graph title meta-tag, when there is one
    and it is not empty; the string of the first title element, likewise. *)
Definition og_title (s : soup) : option string :=
  match soup_find s "meta" "property" "og:title" with
  | Some og =>
      match attr_get (tag_attrs og) "content" with
      | Some c => if PyStr.truthy c then Some c else None
      | None => None
      end
  | None => None
  end.

Definition document_title (s : soup) : option string :=
  match soup_title s with
  | Some t =>
      match tag_string t with
      | Some str => if PyStr.truthy str then Some str else None
      | None => None
      end
  | None => None
  end.

(** The GET of [fetch_title]. *)
Definition title_request (u : string) : event :=
  EGet u 12 [("User-Agent", "Mozilla/5.0")].

Definition is_smtp_event (e : event) : bool :=
  match e with ESmtp _ => true | _ => false end.

Definition is_network_event (e : event) : bool :=
  match e with EGet _ _ _ | EPost _ | ESmtp _ => true | _ => false end.









(** The POST of [call_openai_suggestions]. *)
Definition llm_request (w : world) (link_metas : list LinkMeta) (meals_per_week : Z)
    : post_request :=
  {| post_url := "https://api.openai.com/v1/responses";
     post_headers :=
       [("Authorization",
         "Bearer " +:+ PyStr.strip (getenv_or w "OPENAI_API_KEY" EmptyString));
        ("Content-Type", "application/json")];
     post_data :=
       {| payload_model := PyStr.strip (getenv_or w "OPENAI_MODEL" "gpt-5.2");
          payload_input := [("user", build_prompt link_metas meals_per_week)];
          payload_temperature := "0.4" |};
     post_timeout := 60 |}.

(** The opening of the prompt, up to the number of meals. *)
Definition prompt_preamble : string :=
  "You are helping a household with dinner ideas. You will be given a curated list of recipe links (titles included when available).

Produce:

1) ".

Definition seven_phrase : string := "Seven *suggestions* for dinners (exactly ".

Definition prompt_intro : string := prompt_preamble +:+ seven_phrase.

(** A response whose only text part is white space, and a response whose
    text part has no string. *)
Definition text_part (txt : pyval) : pyval :=
  PDict [("output",
          PList [PDict [("type", PStr "message");
                        ("content", PList [PDict [("type", PStr "output_text");
                                                  ("text", txt)]])]])].

Definition llm_answer (data : pyval) : result response :=
  Ok {| status_code := 200; text := EmptyString; json := Ok data |}.

Definition one_recipe : option string := Some "http://a.example/chicken".

(** ** Vocabulary for the title loop and the mailer *)

(** What [build_link_metas] does to the outside for one URL within the
    cap: the request, then the pause. *)
Definition title_round (u : string) : list event :=
  [title_request u; ESleep 200].

(** The settings [send_email] reads, and the message it builds. *)
Definition email_user_of (w : world) : string :=
  PyStr.strip (getenv_or w "EMAIL_USER" EmptyString).
Definition email_pass_of (w : world) : string :=
  PyStr.strip (getenv_or w "EMAIL_PASS" EmptyString).
Definition email_to_of (w : world) : string :=
  PyStr.strip (getenv_or w "EMAIL_TO" EmptyString).
Definition smtp_host_of (w : world) : string :=
  PyStr.strip (getenv_or w "SMTP_HOST" "smtp.gmail.com").
Definition smtp_port_of (w : world) : result Z :=
  py_int (PyStr.strip (getenv_or w "SMTP_PORT" "587")).

Definition message_of (w : world) (body : string) : EmailMessage :=
  {| msg_from := email_user_of w;
     msg_to := email_to_of w;
     msg_subject :=
       PyStr.strip (getenv_or w "EMAIL_SUBJECT_PREFIX"
                      "Suggestions for things to eat this week")
       +:+ " " +:+ em_dash +:+ " " +:+ today w;
     msg_content := body |}.

(** The commands inside the [with] block, in the order of lines 245-249. *)
Definition smtp_session (w : world) (body : string) : list smtp_command :=
  [SmtpEhlo; SmtpStartTls; SmtpEhlo;
   SmtpLogin (email_user_of w) (email_pass_of w);
   SmtpSendMessage (message_of w body)].

(** Commands issued one after the other until one of them fails. *)
Fixpoint run_commands (w : world) (cmds : list smtp_command) (t : trace)
    : option exn * trace :=
  match cmds with
  | [] => (None, t)
  | c :: rest =>
      match smtp w t c with
      | Ok _ => run_commands w rest (t ++ [ESmtp c])
      | Raise e => (Some e, t ++ [ESmtp c])
      end
  end.

(** The events of a run after the first [n] of its trace. *)
Definition events_after (n : nat) (run : trace) : trace := drop n run.

Definition is_post_event (e : event) : bool :=
  match e with EPost _ => true | _ => false end.

(** A machine whose mail server accepts every command but STARTTLS. *)
Definition no_tls_world (env : list (string * string)) : world :=
  {| getenv := env_get env;
     script_recipes_path := "recipes.txt";
     path_exists := λ _, false;
     open_read := λ _, offline;
     today := "2026-01-05";
     urlparse := Url.urlparse (λ _, true);
     BeautifulSoup := λ _, offline;
     email_policy := λ _, None;
     requests_get := λ _ _, offline;
     requests_post := λ _ _, offline;
     smtp := λ _ c, match c with
                    | SmtpStartTls =>
                        Raise (LibraryError "STARTTLS extension not supported by server.")
                    | _ => Ok tt
                    end |}.

(** * Properties *)

#[local] Set Warnings "-clear-no-such-hyp".

(** ** De-duplication *)

Section Dedupe.
Implicit Types (l urls out : list string) (seen : gset string) (u v : string).

Lemma filter_filter_ne seen u l :
  u ∈ seen →
  filter (λ v, v ∉ seen) (filter (λ v, v ≠ u) l) = filter (λ v, v ∉ seen) l.
Proof.
  intros Hu. induction l as [|x l IH]; [done|].
  rewrite !filter_cons. destruct (decide (x ≠ u)) as [Hx|Hx].
  - rewrite filter_cons. destruct (decide (x ∉ seen)); by rewrite IH.
  - destruct (decide (x ∉ seen)) as [Hs|Hs]; [|done].
    exfalso. apply Hx. intros ->. by apply Hs.
Qed.

Lemma filter_filter_add seen u l :
  filter (λ v, v ∉ ({[u]} ∪ seen : gset string)) l
  = filter (λ v, v ∉ seen) (filter (λ v, v ≠ u) l).
Proof.
  induction l as [|x l IH]; [done|].
  rewrite !filter_cons. destruct (decide (x ≠ u)) as [Hx|Hx].
  - rewrite filter_cons.
    destruct (decide (x ∉ seen)), (decide (x ∉ {[u]} ∪ seen));
      try (by rewrite IH); set_solver.
  - destruct (decide (x ∉ {[u]} ∪ seen)); [set_solver | done].
Qed.

(** The loop invariant: what is still to come is appended to [out], minus
    what [seen] already holds. *)
Lemma dedupe_loop_spec l seen out :
  dedupe_loop l seen out = out ++ filter (λ v, v ∉ seen) (first_occurrences l).
Proof.
  revert seen out. induction l as [|u l IH]; intros seen out; simpl.
  - by rewrite app_nil_r.
  - rewrite filter_cons. destruct (decide (u ∈ seen)) as [Hin|Hnin].
    + rewrite IH. destruct (decide (u ∉ seen)); [done|].
      by rewrite filter_filter_ne.
    + rewrite IH. destruct (decide (u ∉ seen)); [|done].
      by rewrite <- app_assoc, filter_filter_add.
Qed.

Lemma dedupe_eq l : dedupe l = first_occurrences l.
Proof.
  unfold dedupe. rewrite dedupe_loop_spec. simpl.
  induction (first_occurrences l) as [|x k IH]; [done|].
  rewrite filter_cons. destruct (decide (x ∉ (∅ : gset string))); [|set_solver].
  by rewrite IH.
Qed.

Lemma first_occurrences_elem_of l u : u ∈ first_occurrences l ↔ u ∈ l.
Proof.
  induction l as [|x l IH]; simpl; [done|].
  rewrite !elem_of_cons, list_elem_of_filter, IH.
  destruct (decide (u = x)); naive_solver.
Qed.

Lemma first_occurrences_NoDup l : NoDup (first_occurrences l).
Proof.
  induction l as [|x l IH]; simpl; [constructor|].
  constructor.
  - rewrite list_elem_of_filter. naive_solver.
  - by apply NoDup_filter.
Qed.

Lemma first_occurrences_sublist l : first_occurrences l `sublist_of` l.
Proof.
  induction l as [|x l IH]; simpl; [constructor|].
  constructor. etrans; [apply sublist_filter | done].
Qed.

(** Two positions of a sublist come from two positions of the list, in the
    same order. *)
Lemma sublist_positions (k l : list string) i j u v :
  k `sublist_of` l → k !! i = Some u → k !! j = Some v → i < j →
  ∃ a b, l !! a = Some u ∧ l !! b = Some v ∧ a < b.
Proof.
  intros Hs. revert i j. induction Hs as [ | x k l Hs IH | x k l Hs IH ]; intros i j Hi Hj Hlt.
  - done.
  - destruct j as [|j]; [lia|]. destruct i as [|i]; simpl in *.
    + apply list_elem_of_lookup_2 in Hj.
      eapply elem_of_sublist in Hj; [|done].
      apply list_elem_of_lookup_1 in Hj as [b Hb].
      exists 0, (S b). simplify_eq. split_and!; [done | done | lia].
    + destruct (IH i j) as (a & b & ? & ? & ?); [done | done | lia |].
      exists (S a), (S b). split_and!; [done | done | lia].
  - destruct (IH i j) as (a & b & ? & ? & ?); [done | done | lia |].
    exists (S a), (S b). split_and!; [done | done | lia].
Qed.

(** A member of a list has a first position. *)
Lemma first_position l u :
  u ∈ l → ∃ a, l !! a = Some u ∧ (u ∉ take a l).
Proof.
  induction l as [|x l IH]; [by intros ?%elem_of_nil|].
  intros Hin. destruct (decide (u = x)) as [->|Hne].
  - exists 0. split; [done | apply not_elem_of_nil].
  - apply elem_of_cons in Hin as [?|Hin]; [done|].
    destruct (IH Hin) as (a & Ha & Hfirst).
    exists (S a). split; [done|]. simpl. rewrite elem_of_cons. naive_solver.
Qed.

Lemma first_occurrences_order l i j u v :
  first_occurrences l !! i = Some u → first_occurrences l !! j = Some v → i < j →
  ∃ a b, l !! a = Some u ∧ (u ∉ take a l) ∧ l !! b = Some v ∧ (v ∉ take b l) ∧ a < b.
Proof.
  revert i j. induction l as [|x l IH]; intros i j Hi Hj Hlt; [done|].
  simpl in Hi, Hj. destruct j as [|j]; [lia|]. simpl in Hj.
  assert (v ≠ x ∧ v ∈ first_occurrences l) as [Hvx Hv].
  { apply list_elem_of_lookup_2 in Hj. apply list_elem_of_filter in Hj. naive_solver. }
  destruct i as [|i]; simpl in Hi.
  - simplify_eq. apply (proj1 (first_occurrences_elem_of _ _)) in Hv.
    apply first_position in Hv as (b & Hb & Hfirst).
    exists 0, (S b). split_and!; [done | apply not_elem_of_nil | exact Hb | | lia].
    simpl. rewrite elem_of_cons. naive_solver.
  - assert (u ≠ x) as Hux.
    { apply list_elem_of_lookup_2 in Hi. apply list_elem_of_filter in Hi. naive_solver. }
    destruct (sublist_positions (filter (λ v, v ≠ x) (first_occurrences l))
                (first_occurrences l) i j u v) as (i' & j' & Hi' & Hj' & Hlt');
      [apply sublist_filter | done | done | lia |].
    destruct (IH i' j' Hi' Hj' Hlt') as (a & b & Ha & Hfa & Hb & Hfb & Hab).
    exists (S a), (S b). simpl. rewrite !elem_of_cons.
    split_and!; [done | naive_solver | done | naive_solver | lia].
Qed.

End Dedupe.

(** C1. For every sequence of URL strings the de-duplication step returns
    the first occurrence of each distinct string and nothing else: the
    result is the list of first occurrences, a subsequence of the input
    without repetition, with exactly the strings of the input (compared by
    equality of the whole string), and two entries of the result stand in
    the order of their first positions in the input. *)
Theorem dedupe_first_occurrences_only (urls : list string) :
  dedupe urls = first_occurrences urls
  ∧ dedupe urls `sublist_of` urls
  ∧ NoDup (dedupe urls)
  ∧ (∀ u, u ∈ dedupe urls ↔ u ∈ urls)
  ∧ (∀ i j u v,
        dedupe urls !! i = Some u → dedupe urls !! j = Some v → i < j →
        ∃ a b, urls !! a = Some u ∧ (u ∉ take a urls)
               ∧ urls !! b = Some v ∧ (v ∉ take b urls) ∧ a < b).
Proof.
  rewrite dedupe_eq. split_and!.
  - done.
  - apply first_occurrences_sublist.
  - apply first_occurrences_NoDup.
  - apply first_occurrences_elem_of.
  - apply first_occurrences_order.
Qed.

(** Matching is on the exact string: two URLs that differ only in the case
    of a letter are both kept, and a repeated one is kept once. *)
Example dedupe_case_sensitive :
  dedupe ["http://a.example/Pie"; "http://a.example/pie"; "http://a.example/Pie"]
  = ["http://a.example/Pie"; "http://a.example/pie"].
Proof. vm_compute. reflexivity. Qed.

(** ** Strings *)

Section StringFacts.
Import PyStr.
Implicit Types (s k a b : string) (c d : ascii).

Lemma app_cons c a b : String c a +:+ b = String c (a +:+ b).
Proof. reflexivity. Qed.

Lemma app_empty_l b : EmptyString +:+ b = b.
Proof. reflexivity. Qed.

Lemma app_empty_r a : a +:+ EmptyString = a.
Proof. induction a as [|c a IH]; [done|]. by rewrite app_cons, IH. Qed.

Lemma app_assoc' a b s : (a +:+ b) +:+ s = a +:+ b +:+ s.
Proof. induction a as [|c a IH]; [done|]. by rewrite !app_cons, IH. Qed.

Lemma prefix_spec k s : String.prefix k s = true ↔ ∃ post, s = k +:+ post.
Proof.
  revert s. induction k as [|c k IH]; intros s.
  - split; [|by destruct s]. intros _. by exists s.
  - destruct s as [|d s]; simpl.
    + split; [done|]. by intros [post ?].
    + destruct (ascii_dec c d) as [->|Hne].
      * rewrite IH. split; intros [post Hp]; exists post.
        -- by rewrite app_cons, <- Hp.
        -- rewrite app_cons in Hp. by simplify_eq.
      * split; [done|]. intros [post Hp]. rewrite app_cons in Hp. by simplify_eq.
Qed.

Lemma contains_spec k s : contains k s = true ↔ substring_of k s.
Proof.
  unfold substring_of. induction s as [|d s IH]; simpl.
  - rewrite orb_false_r. split.
    + intros Hp. destruct k; [|done]. by exists EmptyString, EmptyString.
    + intros (pre & post & Heq). destruct pre, k; done.
  - rewrite orb_true_iff, IH, (prefix_spec k (String d s)). split.
    + intros [[post Hp]|(pre & post & Hp)].
      * by exists EmptyString, post.
      * exists (String d pre), post. by rewrite app_cons, <- Hp.
    + intros (pre & post & Hp). destruct pre as [|e pre].
      * left. by exists post.
      * right. rewrite app_cons in Hp. simplify_eq. by exists pre, post.
Qed.

Lemma prefix_app k a b : String.prefix k a = true → String.prefix k (a +:+ b) = true.
Proof.
  rewrite !prefix_spec. intros [post ->]. exists (post +:+ b). by rewrite app_assoc'.
Qed.


Lemma contains_app_r k a b : contains k b = true → contains k (a +:+ b) = true.
Proof.
  rewrite !contains_spec. intros (pre & post & ->).
  exists (a +:+ pre), post. by rewrite !app_assoc'.
Qed.




(** *** strip *)

Lemma lstrip_blank s : blank s = true → lstrip s = EmptyString.
Proof.
  induction s as [|c s IH]; [done|]. simpl. intros [Hc Hs]%andb_true_iff.
  rewrite Hc. by apply IH.
Qed.

Lemma strip_blank s : blank s = true → strip s = EmptyString.
Proof. intros H. unfold strip. by rewrite lstrip_blank. Qed.


Lemma lstrip_blank_iff s : lstrip s = EmptyString ↔ blank s = true.
Proof.
  split; [|apply lstrip_blank]. unfold blank.
  induction s as [|c s IH]; [done|]. simpl.
  destruct (is_space c); [apply IH | done].
Qed.


Lemma rstrip_cons_nonspace c s :
  is_space c = false → rstrip (String c s) = String c (rstrip s).
Proof. intros Hc. simpl. rewrite Hc. by destruct (rstrip s). Qed.

Lemma rstrip_idem s : rstrip (rstrip s) = rstrip s.
Proof.
  induction s as [|c s IH]; [done|]. simpl.
  destruct (rstrip s) as [|d r] eqn:Hr.
  - destruct (is_space c) eqn:Hc; [done|]. simpl. by rewrite Hc.
  - change (rstrip (String c (String d r))) with
      (match rstrip (String d r) with
       | EmptyString => if is_space c then EmptyString else String c EmptyString
       | r' => String c r'
       end).
    by rewrite IH.
Qed.

(** What [lstrip] returns is empty or starts with a character that is not
    white space; [rstrip] keeps such a first character. *)
Lemma lstrip_head s :
  lstrip s = EmptyString ∨ ∃ c r, lstrip s = String c r ∧ is_space c = false.
Proof.
  induction s as [|c s IH]; [by left|]. simpl.
  destruct (is_space c) eqn:Hc; [done|]. right. by exists c, s.
Qed.

Lemma strip_head s :
  strip s = EmptyString ∨ ∃ c r, strip s = String c r ∧ is_space c = false.
Proof.
  unfold strip. destruct (lstrip_head s) as [->|(c & r & -> & Hc)]; [by left|].
  right. exists c, (rstrip r). by rewrite rstrip_cons_nonspace.
Qed.

Lemma strip_idem s : strip (strip s) = strip s.
Proof.
  destruct (strip_head s) as [->|(c & r & Heq & Hc)]; [done|].
  unfold strip at 1. rewrite Heq. simpl. rewrite Hc.
  rewrite <- Heq. unfold strip. apply rstrip_idem.
Qed.

(** [rstrip] does not reach beyond a character that is not white space. *)
Lemma rstrip_app_nonspace a c s :
  is_space c = false → rstrip (a +:+ String c s) = a +:+ String c (rstrip s).
Proof.
  intros Hc. induction a as [|x a IH].
  - by rewrite !app_empty_l, rstrip_cons_nonspace.
  - rewrite !app_cons. simpl. rewrite IH. by destruct a.
Qed.


End StringFacts.

(** ** The dessert filter *)

Section Sweet.
Import PyStr.



Lemma is_probably_sweet_url_eq w url p :
  urlparse w url = Ok p →
  is_probably_sweet_url w url
  = Ok (existsb (λ k, contains k (hay_of p)) DESSERT_KEYWORDS).
Proof. intros H. unfold is_probably_sweet_url. by rewrite H. Qed.

Lemma is_probably_sweet_url_raises w url e :
  urlparse w url = Raise e → is_probably_sweet_url w url = Raise e.
Proof. intros H. unfold is_probably_sweet_url. by rewrite H. Qed.

Lemma is_probably_sweet_url_ok w url b :
  is_probably_sweet_url w url = Ok b → ∃ p, urlparse w url = Ok p.
Proof. unfold is_probably_sweet_url. destruct (urlparse w url); [eauto | done]. Qed.

End Sweet.



Example sweet_chocolate_brownie :
  is_probably_sweet_url (offline_world [] None) "https://a.example/chocolate-brownie"
  = Ok true.
Proof. vm_compute. reflexivity. Qed.

Example not_sweet_grilled_chicken :
  is_probably_sweet_url (offline_world [] None) "https://a.example/grilled-chicken"
  = Ok false.
Proof. vm_compute. reflexivity. Qed.


(** ** The loader *)

Section Loader.
Import PyStr.
Implicit Types (w : world) (u x line : string) (l lines urls out : list string).




Lemma read_loop_eq lines :
  read_loop lines
  = List.filter (λ u, truthy u && negb (startswith u "#")) (map strip lines).
Proof.
  induction lines as [|line lines IH]; [done|]. simpl. rewrite IH.
  destruct (truthy (strip line)), (startswith (strip line) "#"); done.
Qed.

Lemma keep_http_cons x l :
  keep_http (x :: l)
  = if truthy x && startswith (strip x) "http" then strip x :: keep_http l
    else keep_http l.
Proof.
  unfold keep_http. simpl. by destruct (truthy x && startswith (strip x) "http").
Qed.

(** Lines 74-82 together compute the specification's reading of the file. *)
Lemma keep_http_read_loop lines : keep_http (read_loop lines) = http_lines lines.
Proof.
  unfold http_lines. induction lines as [|line lines IH]; [done|]. simpl.
  destruct (truthy (strip line)) eqn:Ht; simpl; [|done].
  destruct (startswith (strip line) "#") eqn:Hc; simpl; [done|].
  rewrite keep_http_cons, strip_idem, Ht, IH. simpl.
  by destruct (startswith (strip line) "http").
Qed.


Lemma candidate_urls_file w file_text :
  path_exists w (recipes_file_of w) = true →
  open_read w (recipes_file_of w) = Ok file_text →
  candidate_urls w = Ok (http_lines (iter_lines file_text)).
Proof.
  intros He Ho. unfold candidate_urls. rewrite He, Ho. simpl.
  by rewrite keep_http_read_loop.
Qed.

Lemma candidate_urls_no_file w :
  path_exists w (recipes_file_of w) = false → candidate_urls w = Ok [].
Proof. intros He. unfold candidate_urls. by rewrite He. Qed.










Lemma load_recipe_urls_without_sweets w cands :
  candidate_urls w = Ok cands → include_sweets_of w = false →
  load_recipe_urls w = (kept <- drop_sweet w cands ;; Ok (dedupe kept)).
Proof. intros Hc Hi. unfold load_recipe_urls. by rewrite Hc, Hi. Qed.

End Loader.








(** ** Page titles *)

Section Titles.
Import PyStr.

Lemma title_of_soup_eq (s : soup) :
  title_of_soup s
  = match og_title s with
    | Some c => Some (strip c)
    | None => strip <$> document_title s
    end.
Proof.
  unfold title_of_soup, og_title, document_title.
  destruct (soup_find s "meta" "property" "og:title") as [og|];
    [destruct (attr_get (tag_attrs og) "content") as [c|]; [destruct (truthy c)|]|];
    try done;
    destruct (soup_title s) as [t|]; try done;
    destruct (tag_string t) as [x|]; try done; by destruct (truthy x).
Qed.

(** [fetch_title] as one case analysis on what the world answers. *)
Lemma fetch_title_run w u t :
  fetch_title w u t
  = (Ok match requests_get w t u with
        | Ok r =>
            match raise_for_status r with
            | Ok _ =>
                match BeautifulSoup w (text r) with
                | Ok page => default EmptyString (title_of_soup page)
                | Raise _ => EmptyString
                end
            | Raise _ => EmptyString
            end
        | Raise _ => EmptyString
        end,
     t ++ [title_request u]).
Proof.
  unfold fetch_title, bind, try_except, call, lift, ret, title_request.
  destruct (requests_get w t u) as [r|e]; [|done].
  destruct (raise_for_status r); [|done].
  destruct (BeautifulSoup w (text r)) as [page|e]; [|done].
  by destruct (title_of_soup page).
Qed.



End Titles.



(** ** The API key *)



(** ** The text of the LLM response *)

Section Extraction.
Import PyStr.


Lemma join_cons sep x y (l : list string) :
  join sep (x :: y :: l) = x +:+ sep +:+ join sep (y :: l).
Proof. reflexivity. Qed.







(** With a key, [call_openai_suggestions] posts once and goes by the
    answer. *)
Lemma call_openai_suggestions_run w link_metas n t :
  truthy (strip (getenv_or w "OPENAI_API_KEY" EmptyString)) = true →
  call_openai_suggestions w link_metas n t
  = (match requests_post w t (llm_request w link_metas n) with
     | Ok resp =>
         if (400 <=? status_code resp)%Z
         then Raise (RuntimeError ("OpenAI API error " +:+ str_of_int (status_code resp)
                                   +:+ ": " +:+ text resp))
         else data <- json resp ;; extract_text data
     | Raise e => Raise e
     end,
     t ++ [EPost (llm_request w link_metas n)]).
Proof.
  intros Hkey. unfold call_openai_suggestions. rewrite Hkey. cbn [negb].
  fold (llm_request w link_metas n). unfold bind, call, raise, lift.
  destruct (requests_post w t (llm_request w link_metas n)) as [resp|e]; [|done].
  destruct (400 <=? status_code resp)%Z; [done|].
  by destruct (json resp).
Qed.


End Extraction.




(** ** Exit codes *)

(** C9.  When the loader returns no URL, [main] prints the guidance
    message and returns 2, and the print is the only thing it does: no
    title request, no POST, no SMTP command.  When the loader returns
    URLs and every later stage returns, [main] returns 0.  [main] returns
    no other code. *)
Theorem main_exit_codes (w : world) (t : trace) :
  (load_recipe_urls w = Ok [] →
   main w t = (Ok 2%Z, t ++ [EPrint no_urls_message]))
  ∧ (∀ u us n metas t1 body t2 t3,
       load_recipe_urls w = Ok (u :: us) →
       py_int (PyStr.strip (getenv_or w "MEALS_PER_WEEK" "7")) = Ok n →
       build_link_metas w (u :: us) 60 t = (Ok metas, t1) →
       call_openai_suggestions w metas n t1 = (Ok body, t2) →
       send_email w body t2 = (Ok tt, t3) →
       main w t = (Ok 0%Z, t3))
  ∧ (∀ code t', main w t = (Ok code, t') →
       (code = 2%Z ∧ load_recipe_urls w = Ok []
        ∧ t' = t ++ [EPrint no_urls_message]
        ∧ Forall (λ e, is_network_event e = false) [EPrint no_urls_message])
       ∨ (code = 0%Z ∧ ∃ u us, load_recipe_urls w = Ok (u :: us))).
Proof.
  split_and!.
  - intros Hl. unfold main, bind, lift. by rewrite Hl.
  - intros u us n metas t1 body t2 t3 Hl Hn Hb Hc Hs.
    unfold main, bind, lift. by rewrite Hl, Hn, Hb, Hc, Hs.
  - intros code t'. unfold main, bind, lift.
    destruct (load_recipe_urls w) as [[|u us]|e]; [| |done].
    + intros [= <- <-]. left. split_and!; [done | done | done | by repeat constructor].
    + destruct (py_int _) as [n|]; [|done].
      destruct (build_link_metas w (u :: us) 60 t) as [[metas|] t1]; [|done].
      destruct (call_openai_suggestions w metas n t1) as [[body|] t2]; [|done].
      destruct (send_email w body t2) as [[[]|] t3]; [|done].
      intros [= <- <-]. right. eauto.
Qed.

(** A run that succeeds: one recipe, a page with a title, an answer from
    the LLM, a mail server that accepts every command. *)
Lemma main_exit_codes_witness :
  let page := Ok {| status_code := 200; text := "<title>Roast chicken</title>";
                    json := offline |} in
  let parsed := Ok [{| tag_name := "title"; tag_attrs := [];
                       tag_string := Some "Roast chicken" |}] in
  let env := [("OPENAI_API_KEY", "sk-test"); ("EMAIL_USER", "cook@a.example");
              ("EMAIL_PASS", "secret"); ("EMAIL_TO", "family@a.example")] in
  let w := example_world env one_recipe page parsed
             (llm_answer (text_part (PStr "Hello! Suggestions ..."))) (Ok tt) in
  load_recipe_urls w = Ok ["http://a.example/chicken"]
  ∧ fst (main w []) = Ok 0%Z
  ∧ fst (main (offline_world [] None) []) = Ok 2%Z.
Proof.
  intros page parsed env w.
  assert (load_recipe_urls w = Ok ["http://a.example/chicken"]) as Hl
    by (vm_compute; reflexivity).
  split_and!; [exact Hl | |].
  - destruct (build_link_metas w ["http://a.example/chicken"] 60 []) as [rm t1] eqn:Hb.
    destruct rm as [metas|e]; [|vm_compute in Hb; discriminate Hb].
    destruct (call_openai_suggestions w metas 7 t1) as [rb t2] eqn:Hc.
    destruct rb as [body|e];
      [|vm_compute in Hb; injection Hb as <- <-; vm_compute in Hc; discriminate Hc].
    destruct (send_email w body t2) as [rs t3] eqn:Hs.
    destruct rs as [[]|e];
      [|vm_compute in Hb; injection Hb as <- <-; vm_compute in Hc;
        injection Hc as <- <-; vm_compute in Hs; discriminate Hs].
    rewrite (proj1 (proj2 (main_exit_codes w [])) _ _ 7%Z metas t1 body t2 t3 Hl
               ltac:(vm_compute; reflexivity) Hb Hc Hs).
    reflexivity.
  - rewrite (proj1 (main_exit_codes (offline_world [] None) []));
      [reflexivity | vm_compute; reflexivity].
Defined.

(** ** The prompt *)

Section Prompt.
Import PyStr.

Lemma str_of_int_inj (a b : Z) : str_of_int a = str_of_int b → a = b.
Proof.
  unfold str_of_int. intros H.
  apply (f_equal NilEmpty.int_of_string) in H. rewrite !NilEmpty.isi in H.
  injection H as H. apply (f_equal Z.of_int) in H. by rewrite !DecimalZ.of_to in H.
Qed.

Lemma lstrip_cons_space c s : is_space c = true → lstrip (String c s) = lstrip s.
Proof. intros H. simpl. by rewrite H. Qed.

Lemma lstrip_cons_nonspace c s : is_space c = false → lstrip (String c s) = String c s.
Proof. intros H. simpl. by rewrite H. Qed.

(** The prompt opens with the fixed text up to "(exactly ", goes on with
    the number and ")." and ends with text that has no trailing white
    space. *)
Lemma build_prompt_opening link_metas n :
  ∃ rest, build_prompt link_metas n
          = prompt_intro +:+ str_of_int n +:+ ")." +:+ rest.
Proof.
  unfold build_prompt, prompt_template, strip.
  lazymatch goal with
  | |- ∃ rest, rstrip (lstrip (String ?c ?intro +:+ str_of_int n +:+ String ?p (String ?q ?lit) +:+ ?tail)) = _ =>
      change (String c intro +:+ str_of_int n +:+ String p (String q lit) +:+ tail)
        with (String c (prompt_intro +:+ str_of_int n +:+ String p (String q (lit +:+ tail))))
  end.
  rewrite lstrip_cons_space by reflexivity.
  change (prompt_intro +:+ ?x) with (String "Y" ((String.substring 1 (String.length prompt_intro - 1) prompt_intro) +:+ x)).
  rewrite lstrip_cons_nonspace by reflexivity.
  rewrite <- app_cons.
  lazymatch goal with
  | |- ∃ rest, rstrip (?a +:+ str_of_int n +:+ ?b) = _ =>
      change a with prompt_intro; rewrite <- (app_assoc' prompt_intro (str_of_int n) b)
  end.
  rewrite rstrip_app_nonspace by reflexivity.
  rewrite rstrip_cons_nonspace by reflexivity.
  eexists. rewrite app_assoc'. reflexivity.
Qed.

End Prompt.

(** C10.  Whatever the number of meals, the prompt opens with the same
    fixed text, which ends in "Seven *suggestions* for dinners (exactly ",
    followed by the number in decimal and ").": the word "Seven" does not
    depend on the number.  The number printed is "7" only when the number
    of meals is 7, so for any other number the prompt asks for seven
    suggestions and for exactly that other number. *)
Theorem prompt_says_seven_and_exactly_n (link_metas : list LinkMeta) (meals_per_week : Z) :
  (∃ rest, build_prompt link_metas meals_per_week
           = prompt_preamble +:+ seven_phrase +:+ str_of_int meals_per_week
             +:+ ")." +:+ rest)
  ∧ substring_of (seven_phrase +:+ str_of_int meals_per_week +:+ ")")
      (build_prompt link_metas meals_per_week)
  ∧ substring_of "Seven" (build_prompt link_metas meals_per_week)
  ∧ (meals_per_week ≠ 7%Z → str_of_int meals_per_week ≠ "7")
  ∧ (str_of_int 7 = "7").
Proof.
  destruct (build_prompt_opening link_metas meals_per_week) as [rest Hp].
  unfold prompt_intro in Hp. rewrite app_assoc' in Hp. split_and!.
  - by exists rest.
  - exists prompt_preamble, ("." +:+ rest). rewrite Hp, !app_assoc'. reflexivity.
  - exists prompt_preamble,
      (" *suggestions* for dinners (exactly " +:+ str_of_int meals_per_week +:+ ")." +:+ rest).
    rewrite Hp. reflexivity.
  - intros Hne Heq. apply Hne. by apply str_of_int_inj.
  - reflexivity.
Qed.

Example prompt_for_three_meals :
  substring_of "Seven *suggestions* for dinners (exactly 3)." (build_prompt [] 3).
Proof. apply contains_spec. vm_compute. reflexivity. Qed.

(** * Further properties *)

(** ** The title loop *)

Section TitleLoop.
Import PyStr.

Lemma fetch_title_trimmed w u t s t' :
  fetch_title w u t = (Ok s, t') → strip s = s.
Proof.
  rewrite fetch_title_run. intros [= <- _].
  destruct (requests_get w t u) as [r|]; [|done].
  destruct (raise_for_status r); [|done].
  destruct (BeautifulSoup w (text r)) as [page|]; [|done].
  rewrite title_of_soup_eq.
  destruct (og_title page); [|destruct (document_title page)]; simpl;
    by rewrite ?strip_idem.
Qed.

(** One round per URL, in order; one entry per URL, with a trimmed title. *)
Lemma fetch_each_rounds w urls t :
  ∃ metas,
    fetch_each w urls t = (Ok metas, t ++ flat_map title_round urls)
    ∧ map url metas = urls
    ∧ Forall (λ m, strip (title m) = title m) metas.
Proof.
  revert t. induction urls as [|u urls IH]; intros t.
  - exists []. by rewrite app_nil_r.
  - cbn [fetch_each]. unfold bind at 1.
    destruct (fetch_title w u t) as [r t1] eqn:Hf.
    pose proof Hf as Hf'. rewrite fetch_title_run in Hf'.
    injection Hf' as <- <-.
    unfold bind at 1, emit at 1.
    destruct (IH ((t ++ [title_request u]) ++ [ESleep 200])) as (metas & Hrun & Hurls & Htrim).
    unfold bind. rewrite Hrun. eexists (_ :: metas). split_and!.
    + unfold ret. cbn [flat_map title_round]. by rewrite <- !app_assoc.
    + simpl. by rewrite Hurls.
    + constructor; [|done]. simpl. eapply fetch_title_trimmed. exact Hf.
Qed.

End TitleLoop.


(** X2.  The only things [build_link_metas] does to the outside are, for
    each of the first [max_to_fetch] URLs in order, one title request
    followed by one pause of 200 ms: URLs beyond the cap cause no request,
    and there are min(max_to_fetch, number of URLs) requests in all. *)
Theorem build_link_metas_requests_within_cap
    (w : world) (urls : list string) (max_to_fetch : nat) (t : trace) :
  snd (build_link_metas w urls max_to_fetch t)
  = t ++ flat_map title_round (take max_to_fetch urls)
  ∧ length (flat_map title_round (take max_to_fetch urls))
    = 2 * min max_to_fetch (length urls)
  ∧ (∀ u, title_request u ∈ flat_map title_round (take max_to_fetch urls)
          → u ∈ take max_to_fetch urls).
Proof.
  unfold build_link_metas, bind.
  destruct (fetch_each_rounds w (take max_to_fetch urls) t) as (metas & -> & _ & _).
  split_and!; [done | |].
  - rewrite <- length_take.
    induction (take max_to_fetch urls) as [|u l IH]; [done|]. simpl. lia.
  - intros u Hin. apply list_elem_of_In, in_flat_map in Hin as (u' & Hu' & Hin).
    apply list_elem_of_In. destruct Hin as [Heq|[Heq|[]]]; [|discriminate Heq].
    unfold title_request in Heq. by simplify_eq.
Qed.

(** ** The mailer *)

Section Mailer.
Import PyStr.


(** The commands of a run are a prefix of the list; the run succeeds only
    when the prefix is the whole list, and every command but the last one
    issued was accepted. *)
Lemma run_commands_prefix w cmds t :
  ∃ k, (k ≤ length cmds)%nat
       ∧ snd (run_commands w cmds t) = t ++ map ESmtp (take k cmds)
       ∧ (fst (run_commands w cmds t) = None → k = length cmds)
       ∧ (cmds ≠ [] → (1 ≤ k)%nat)
       ∧ (∀ i c, (S i < k)%nat → cmds !! i = Some c →
            smtp w (t ++ map ESmtp (take i cmds)) c = Ok tt).
Proof.
  revert t. induction cmds as [|c cmds IH]; intros t.
  - exists 0. simpl. rewrite app_nil_r. split_and!; [lia | done | done | done |].
    intros i c Hi. lia.
  - cbn [run_commands]. destruct (smtp w t c) as [[]|e] eqn:Hc.
    + destruct (IH (t ++ [ESmtp c])) as (k & Hk & Ht & Hnone & _ & Hacc).
      exists (S k). simpl. rewrite Ht, <- app_assoc.
      split_and!; [lia | done | | lia |].
      * intros H. by rewrite Hnone.
      * intros [|i] c' Hi Hlook.
        -- simpl in Hlook. injection Hlook as <-. by rewrite app_nil_r.
        -- simpl in Hlook. cbn [take map]. rewrite cons_middle, app_assoc.
           apply Hacc; [lia | done].
    + exists 1. simpl. split_and!; [lia | done | done | lia |].
      intros i c' Hi. lia.
Qed.

Lemma run_commands_all_ok w cmds t :
  (∀ t' c, smtp w t' c = Ok tt) →
  run_commands w cmds t = (None, t ++ map ESmtp cmds).
Proof.
  intros Hok. revert t. induction cmds as [|c cmds IH]; intros t.
  - simpl. by rewrite app_nil_r.
  - cbn [run_commands]. rewrite Hok, IH. simpl. by rewrite <- app_assoc.
Qed.

(** The [with] block of lines 244-249 as a run of the command list. *)
Lemma session_block_run w body t :
  (smtp_do w SmtpEhlo ;;;
   smtp_do w SmtpStartTls ;;;
   smtp_do w SmtpEhlo ;;;
   smtp_do w (SmtpLogin (email_user_of w) (email_pass_of w)) ;;;
   smtp_do w (SmtpSendMessage (message_of w body))) t
  = (match fst (run_commands w (smtp_session w body) t) with
     | None => Ok tt
     | Some e => Raise e
     end,
     snd (run_commands w (smtp_session w body) t)).
Proof.
  unfold bind, smtp_do, call, smtp_session. cbn [run_commands].
  repeat match goal with
         | |- context [smtp w ?h ?c] => destruct (smtp w h c) as [[]|?]; [|reflexivity]
         end.
  reflexivity.
Qed.

(** [send_email], stage by stage. *)
Lemma send_email_run w body t :
  send_email w body t
  = if negb (truthy (email_user_of w) && truthy (email_pass_of w)
             && truthy (email_to_of w))
    then (Raise email_config_error, t)
    else match smtp_port_of w with
         | Raise e => (Raise e, t)
         | Ok port =>
             match email_policy w (message_of w body) with
             | Some e => (Raise e, t)
             | None =>
                 let connect := SmtpConnect (smtp_host_of w) port in
                 match smtp w t connect with
                 | Raise e => (Raise e, t ++ [ESmtp connect])
                 | Ok _ =>
                     let run := run_commands w (smtp_session w body)
                                  (t ++ [ESmtp connect]) in
                     (match smtp w (snd run) SmtpQuit with
                      | Raise e => Raise e
                      | Ok _ => match fst run with
                                | Some e => Raise e
                                | None => Ok tt
                                end
                      end,
                      snd run ++ [ESmtp SmtpQuit])
                 end
             end
         end.
Proof.
  unfold send_email.
  fold (email_user_of w) (email_pass_of w) (email_to_of w) (smtp_host_of w).
  destruct (negb _); [done|].
  unfold bind at 1, lift at 1. fold (smtp_port_of w).
  destruct (smtp_port_of w) as [port|e]; [|done].
  change {| msg_from := email_user_of w; msg_to := email_to_of w;
            msg_subject := _; msg_content := body |} with (message_of w body).
  destruct (email_policy w (message_of w body)); [done|].
  unfold with_smtp. unfold bind at 1, smtp_do at 1, call at 1.
  destruct (smtp w t (SmtpConnect (smtp_host_of w) port)) as [[]|e]; [|done].
  cbn zeta. unfold bind at 1, try_except at 1, bind at 1.
  rewrite session_block_run.
  destruct (run_commands w (smtp_session w body) _) as [[e|] t1]; cbn [fst snd];
    unfold ret, bind, smtp_do, call, raise;
    by destruct (smtp w t1 SmtpQuit) as [[]|?].
Qed.

(** The SMTP commands of any run of [send_email]: none; or the connection
    attempt alone; or the connection, a non-empty prefix of the session
    and QUIT. *)
Lemma send_email_commands w body t :
  ∃ cmds,
    snd (send_email w body t) = t ++ map ESmtp cmds
    ∧ (cmds = []
       ∨ (∃ port, cmds = [SmtpConnect (smtp_host_of w) port])
       ∨ (∃ port k, (1 ≤ k ≤ 5)%nat
            ∧ cmds = SmtpConnect (smtp_host_of w) port
                     :: take k (smtp_session w body) ++ [SmtpQuit]
            ∧ (∀ i c, (S i < k)%nat → smtp_session w body !! i = Some c →
                 smtp w (t ++ map ESmtp (SmtpConnect (smtp_host_of w) port
                                         :: take i (smtp_session w body))) c
                 = Ok tt))).
Proof.
  assert (∀ (r : result unit) P, ∃ cmds : list smtp_command,
             snd (r, t) = t ++ map ESmtp cmds ∧ (cmds = [] ∨ P cmds)) as Hnone.
  { intros r P. exists []. split; [simpl; by rewrite app_nil_r | by left]. }
  rewrite send_email_run. destruct (negb _); [apply Hnone|].
  destruct (smtp_port_of w) as [port|e]; [|apply Hnone].
  destruct (email_policy w (message_of w body)); [apply Hnone|]. clear Hnone.
  cbn zeta. destruct (smtp w t (SmtpConnect (smtp_host_of w) port)) as [[]|e].
  - destruct (run_commands_prefix w (smtp_session w body)
                (t ++ [ESmtp (SmtpConnect (smtp_host_of w) port)]))
      as (k & Hk & Ht & Hnone & Hpos & Hacc).
    eexists (_ :: take k (smtp_session w body) ++ [SmtpQuit]). cbn [snd fst]. split.
    + rewrite Ht. cbn [map]. rewrite map_app, <- !app_assoc. reflexivity.
    + right. right. exists port, k. split_and!; [by apply Hpos | exact Hk | done |].
      intros i c Hi Hlook. cbn [map]. rewrite cons_middle, app_assoc. by apply Hacc.
  - exists [SmtpConnect (smtp_host_of w) port]. split; [done|]. right. left. by exists port.
Qed.

End Mailer.





(** X6.  With the three credentials set, a valid port, headers the email
    package accepts and a server that accepts every command, [send_email]
    returns normally after exactly seven commands: connect to the
    configured host and port, EHLO, STARTTLS, EHLO, login, the message,
    QUIT.  Conversely it returns normally only after all seven. *)
Theorem send_email_whole_session (w : world) (body : string) (t : trace) (port : Z) :
  PyStr.truthy (email_user_of w) = true →
  PyStr.truthy (email_pass_of w) = true →
  PyStr.truthy (email_to_of w) = true →
  smtp_port_of w = Ok port →
  email_policy w (message_of w body) = None →
  ((∀ t' c, smtp w t' c = Ok tt) →
   send_email w body t
   = (Ok tt, t ++ map ESmtp (SmtpConnect (smtp_host_of w) port
                             :: smtp_session w body ++ [SmtpQuit])))
  ∧ (∀ t', send_email w body t = (Ok tt, t') →
       t' = t ++ map ESmtp (SmtpConnect (smtp_host_of w) port
                            :: smtp_session w body ++ [SmtpQuit])).
Proof.
  intros Hu Hp Hto Hport Hpol. split.
  - intros Hok. rewrite send_email_run, Hu, Hp, Hto, Hport, Hpol. cbn zeta. cbn [andb negb].
    rewrite Hok, run_commands_all_ok by done. cbn [fst snd]. rewrite Hok.
    cbn [map]. rewrite map_app, <- !app_assoc. reflexivity.
  - intros t' Hrun.
    pose proof (send_email_run w body t) as Heq.
    rewrite Hu, Hp, Hto, Hport, Hpol in Heq. cbn zeta in Heq. cbn [andb negb] in Heq.
    rewrite Hrun in Heq.
    destruct (smtp w t (SmtpConnect (smtp_host_of w) port)) as [[]|e]; [|discriminate Heq].
    destruct (run_commands_prefix w (smtp_session w body)
                (t ++ [ESmtp (SmtpConnect (smtp_host_of w) port)]))
      as (k & _ & Hk & Hnone & _ & _).
    set (run := run_commands w (smtp_session w body)
                  (t ++ [ESmtp (SmtpConnect (smtp_host_of w) port)])) in *.
    clearbody run. destruct run as [o t1]. cbn [fst snd] in *.
    injection Heq as Hres Htr.
    destruct (smtp w t1 SmtpQuit); [|discriminate Hres].
    destruct o; [discriminate Hres|].
    rewrite (Hnone eq_refl) in Hk. rewrite Htr, Hk, firstn_all.
    cbn [map]. rewrite map_app, <- !app_assoc. reflexivity.
Qed.

Lemma send_email_whole_session_witness :
  let env := [("EMAIL_USER", "cook@a.example"); ("EMAIL_PASS", "secret");
              ("EMAIL_TO", "family@a.example"); ("SMTP_PORT", " 2_525 ")] in
  let w := example_world env None offline offline offline (Ok tt) in
  smtp_port_of w = Ok 2525%Z
  ∧ send_email w "Hello" []
    = (Ok tt, map ESmtp (SmtpConnect "smtp.gmail.com" 2525
                         :: smtp_session w "Hello" ++ [SmtpQuit])).
Proof.
  intros env w.
  assert (smtp_port_of w = Ok 2525%Z) as Hport by (vm_compute; reflexivity).
  split; [exact Hport|].
  apply (send_email_whole_session w "Hello" [] 2525);
    [vm_compute; reflexivity .. | exact Hport | reflexivity | intros; reflexivity].
Defined.

(** ** The generator *)

Section Generator.
Import PyStr.


(** A member of a list is a substring of its join. *)
Lemma join_substring sep (l : list string) x :
  x ∈ l → substring_of x (join sep l).
Proof.
  induction l as [|y l IH]; [by intros ?%elem_of_nil|].
  intros [->|Hin]%elem_of_cons.
  - destruct l as [|z l].
    + exists EmptyString, EmptyString. by rewrite app_empty_r.
    + rewrite join_cons. by exists EmptyString, (sep +:+ join sep (z :: l)).
  - destruct l as [|z l]; [by apply elem_of_nil in Hin|].
    rewrite join_cons. destruct (IH Hin) as (pre & post & ->).
    exists (y +:+ sep +:+ pre), post. by rewrite !app_assoc'.
Qed.

Lemma lstrip_app_nonspace a c s :
  is_space c = false → lstrip (a +:+ String c s) = lstrip a +:+ String c s.
Proof.
  intros Hc. induction a as [|x a IH].
  - rewrite !app_empty_l. simpl. by rewrite Hc.
  - rewrite app_cons. simpl. destruct (is_space x); [done | by rewrite app_cons].
Qed.

(** Trimming keeps a substring that begins and ends with characters that
    are not white space. *)
Lemma substring_strip c k d s :
  is_space c = false → is_space d = false →
  substring_of (String c k +:+ String d EmptyString) s →
  substring_of (String c k +:+ String d EmptyString) (strip s).
Proof.
  intros Hc Hd (pre & post & ->). unfold strip.
  assert ((String c k +:+ String d EmptyString) +:+ post
          = String c (k +:+ String d post)) as -> by (by rewrite app_assoc').
  rewrite lstrip_app_nonspace by done.
  assert (lstrip pre +:+ String c (k +:+ String d post)
          = (lstrip pre +:+ String c k) +:+ String d post) as ->
    by (by rewrite app_assoc').
  rewrite rstrip_app_nonspace by done.
  exists (lstrip pre), (rstrip post). by rewrite !app_assoc'.
Qed.

End Generator.

(** X7.  When the API key is set and the answer to the POST has a status
    of 400 or more, [call_openai_suggestions] raises a RuntimeError that
    carries the status and the response text, after exactly one POST;
    the JSON of the answer plays no part. *)
Theorem call_openai_suggestions_http_error
    (w : world) (link_metas : list LinkMeta) (meals_per_week : Z) (t : trace)
    (resp : response) :
  PyStr.truthy (PyStr.strip (getenv_or w "OPENAI_API_KEY" EmptyString)) = true →
  requests_post w t (llm_request w link_metas meals_per_week) = Ok resp →
  (400 ≤ status_code resp)%Z →
  call_openai_suggestions w link_metas meals_per_week t
  = (Raise (RuntimeError ("OpenAI API error " +:+ str_of_int (status_code resp)
                          +:+ ": " +:+ text resp)),
     t ++ [EPost (llm_request w link_metas meals_per_week)]).
Proof.
  intros Hkey Hpost Hstatus. rewrite call_openai_suggestions_run, Hpost by done.
  apply Z.leb_le in Hstatus. by rewrite Hstatus.
Qed.

Lemma call_openai_suggestions_http_error_witness :
  let w := example_world [("OPENAI_API_KEY", "sk-test")] None offline offline
             (Ok {| status_code := 429; text := "rate limited";
                    json := Ok (text_part (PStr "ignored")) |}) offline in
  fst (call_openai_suggestions w [] 7 [])
  = Raise (RuntimeError "OpenAI API error 429: rate limited").
Proof.
  intros w.
  rewrite (call_openai_suggestions_http_error w [] 7 []
             {| status_code := 429; text := "rate limited";
                json := Ok (text_part (PStr "ignored")) |});
    [reflexivity | vm_compute; reflexivity | reflexivity | simpl; lia].
Defined.





(** X10.  Every link handed to the generator is in the prompt as its own
    line text, "- title (em dash) url" when it has a title and "- url" when
    it has none, provided its URL does not end in white space (as is the
    case for every URL the loader returns). *)
Theorem prompt_lists_every_link
    (link_metas : list LinkMeta) (meals_per_week : Z) (m : LinkMeta)
    (c : ascii) (u : string) :
  m ∈ link_metas →
  url m = u +:+ String c EmptyString → PyStr.is_space c = false →
  substring_of (link_line m) (build_prompt link_metas meals_per_week)
  ∧ link_line m
    = (if PyStr.truthy (title m)
       then "- " +:+ title m +:+ " " +:+ em_dash +:+ " " +:+ url m
       else "- " +:+ url m).
Proof.
  intros Hin Hurl Hc. split; [|reflexivity].
  assert (∃ k, link_line m = String "-" k +:+ String c EmptyString) as [k Hk].
  { unfold link_line. rewrite Hurl. destruct (PyStr.truthy (title m)).
    - exists (" " +:+ title m +:+ " " +:+ em_dash +:+ " " +:+ u).
      rewrite !app_cons, app_empty_l, !app_assoc'. reflexivity.
    - exists (" " +:+ u). rewrite !app_cons, app_empty_l, !app_assoc'. reflexivity. }
  rewrite Hk. unfold build_prompt. apply substring_strip; [reflexivity | done |].
  rewrite <- Hk. unfold prompt_template.
  assert (link_line m ∈ map link_line link_metas) as Hline.
  { apply list_elem_of_In, in_map, list_elem_of_In, Hin. }
  destruct (join_substring nl _ _ Hline) as (pre & post & ->).
  lazymatch goal with
  | |- substring_of ?x ?s =>
      lazymatch s with
      | context C [pre +:+ x +:+ post] =>
          let s' := context C [@id string (pre +:+ x +:+ post)] in
          change (substring_of x s')
      end
  end.
  repeat lazymatch goal with
  | |- substring_of ?x (?a +:+ id (?p +:+ ?x +:+ ?q)) =>
      exists (a +:+ p), q; unfold id; by rewrite !app_assoc'
  | |- substring_of ?x (id (?p +:+ ?x +:+ ?q) +:+ ?b) =>
      exists p, (q +:+ b); unfold id; by rewrite !app_assoc'
  | |- substring_of ?x (?a +:+ ?b) =>
      apply (contains_spec x); apply contains_app_r; apply (contains_spec x)
  end.
Qed.

Lemma prompt_lists_every_link_witness :
  let m := {| url := "http://a.example/chicken"; title := "Roast chicken" |} in
  substring_of ("- Roast chicken " +:+ em_dash +:+ " http://a.example/chicken")
    (build_prompt [m] 7).
Proof.
  intros m.
  destruct (prompt_lists_every_link [m] 7 m "n"%char "http://a.example/chicke") as [H _].
  - apply list_elem_of_In. left. reflexivity.
  - reflexivity.
  - reflexivity.
  - exact H.
Defined.

(** ** Whole runs *)

Section Runs.
Import PyStr.

Lemma build_link_metas_rounds w urls n t :
  ∃ metas, build_link_metas w urls n t
           = (Ok metas, t ++ flat_map title_round (take n urls)).
Proof.
  unfold build_link_metas, bind.
  destruct (fetch_each_rounds w (take n urls) t) as (metas & -> & _ & _). eauto.
Qed.

Lemma title_rounds_quiet (urls : list string) e :
  e ∈ flat_map title_round urls → is_smtp_event e = false ∧ is_post_event e = false.
Proof.
  intros Hin. apply list_elem_of_In, in_flat_map in Hin as (u & _ & Hin).
  destruct Hin as [<-|[<-|[]]]; done.
Qed.




Lemma send_email_events w body t e :
  e ∈ snd (send_email w body t) → e ∈ t ∨ is_smtp_event e = true.
Proof.
  destruct (send_email_commands w body t) as (cmds & -> & _).
  rewrite elem_of_app. intros [Hin|Hin]; [by left|]. right.
  by apply list_elem_of_In, in_map_iff in Hin as (c & <- & _).
Qed.

(** [main] as one case analysis. *)
Lemma main_run w t :
  main w t
  = match load_recipe_urls w with
    | Raise e => (Raise e, t)
    | Ok [] => (Ok 2%Z, t ++ [EPrint no_urls_message])
    | Ok (u :: us) =>
        match py_int (strip (getenv_or w "MEALS_PER_WEEK" "7")) with
        | Raise e => (Raise e, t)
        | Ok n =>
            let fetched := build_link_metas w (u :: us) 60 t in
            match fst fetched with
            | Raise e => (Raise e, snd fetched)
            | Ok metas =>
                let answered := call_openai_suggestions w metas n (snd fetched) in
                match fst answered with
                | Raise e => (Raise e, snd answered)
                | Ok body =>
                    let sent := send_email w body (snd answered) in
                    (match fst sent with
                     | Ok _ => Ok 0%Z
                     | Raise e => Raise e
                     end, snd sent)
                end
            end
        end
    end.
Proof.
  unfold main, bind, lift, emit, ret.
  destruct (load_recipe_urls w) as [[|u us]|]; [done | | done].
  destruct (py_int _); [|done]. cbn zeta.
  destruct (build_link_metas w (u :: us) 60 t) as [[metas|] t1]; [|done]. cbn [fst snd].
  destruct (call_openai_suggestions w metas _ t1) as [[body|] t2]; [|done]. cbn [fst snd].
  by destruct (send_email w body t2) as [[[]|] t3].
Qed.


Lemma drop_sweet_raises w (l : list string) :
  (∃ u e, u ∈ l ∧ urlparse w u = Raise e) →
  ∃ u e, u ∈ l ∧ urlparse w u = Raise e ∧ drop_sweet w l = Raise e.
Proof.
  induction l as [|u0 l IH]; intros (u & e & Hin & Hu); [by apply elem_of_nil in Hin|].
  cbn [drop_sweet]. destruct (urlparse w u0) as [p|e0] eqn:Hp.
  - destruct IH as (u' & e' & Hin' & Hu' & Hd).
    { apply elem_of_cons in Hin as [->|Hin]; [congruence|]. by exists u, e. }
    exists u', e'. split_and!; [by right | done |].
    rewrite (is_probably_sweet_url_eq w u0 p Hp), Hd. reflexivity.
  - exists u0, e0. split_and!; [by left | done |].
    by rewrite (is_probably_sweet_url_raises w u0 e0 Hp).
Qed.

End Runs.


(** X12.  With a URL list and a valid number of meals but no API key,
    [main] ends with the configuration error only after the title loop
    has run: the trace holds the title requests and pauses for the first
    60 URLs, and neither a POST nor an SMTP command. *)
Theorem main_without_api_key_fetches_titles_first
    (w : world) (t : trace) (u : string) (us : list string) (n : Z) :
  load_recipe_urls w = Ok (u :: us) →
  py_int (PyStr.strip (getenv_or w "MEALS_PER_WEEK" "7")) = Ok n →
  (∀ v, getenv w "OPENAI_API_KEY" = Some v → blank v = true) →
  main w t = (Raise api_key_error, t ++ flat_map title_round (take 60 (u :: us)))
  ∧ ∀ e, e ∈ flat_map title_round (take 60 (u :: us)) →
         is_smtp_event e = false ∧ is_post_event e = false.
Proof.
  intros Hl Hn Hkey. split; [|apply title_rounds_quiet].
  rewrite main_run, Hl, Hn. cbn zeta.
  destruct (build_link_metas_rounds w (u :: us) 60 t) as [metas ->]. cbn [fst snd].
  assert (PyStr.strip (getenv_or w "OPENAI_API_KEY" EmptyString) = EmptyString) as Hblank.
  { unfold getenv_or. destruct (getenv w "OPENAI_API_KEY") as [v|]; [|done].
    apply strip_blank. by apply Hkey. }
  unfold call_openai_suggestions. rewrite Hblank. reflexivity.
Qed.

Lemma main_without_api_key_fetches_titles_first_witness :
  let w := example_world [] one_recipe offline offline offline offline in
  main w [] = (Raise api_key_error,
               [title_request "http://a.example/chicken"; ESleep 200]).
Proof.
  intros w.
  apply (main_without_api_key_fetches_titles_first w [] "http://a.example/chicken" [] 7).
  - vm_compute. reflexivity.
  - vm_compute. reflexivity.
  - intros v Hv. vm_compute in Hv. discriminate Hv.
Defined.

(** X13.  A missing recipes file is not an error: the loader returns the
    empty list, and [main] prints the guidance message and returns 2
    having done nothing else. *)
Theorem main_missing_recipes_file (w : world) (t : trace) :
  path_exists w (recipes_file_of w) = false →
  load_recipe_urls w = Ok []
  ∧ main w t = (Ok 2%Z, t ++ [EPrint no_urls_message]).
Proof.
  intros Hmissing.
  assert (load_recipe_urls w = Ok []) as Hl.
  { unfold load_recipe_urls. rewrite (candidate_urls_no_file w Hmissing).
    cbn [rbind]. by destruct (negb (include_sweets_of w)). }
  split; [exact Hl|]. by rewrite main_run, Hl.
Qed.

Lemma main_missing_recipes_file_witness :
  let w := offline_world [("RECIPES_FILE", "/nowhere/recipes.txt")] (Some "http://a.example/chicken") in
  recipes_file_of w = "/nowhere/recipes.txt"
  ∧ main w [] = (Ok 2%Z, [EPrint no_urls_message]).
Proof.
  intros w. split; [reflexivity|].
  apply (main_missing_recipes_file w []). vm_compute. reflexivity.
Defined.

(** X14.  With the dessert filter on, one line of the recipes file that
    starts with http and that [urlparse] rejects makes the loader raise
    the parser's exception, and [main] ends with it before it prints,
    fetches or sends anything. *)
Theorem malformed_url_aborts_the_run (w : world) (file_text : string) :
  path_exists w (recipes_file_of w) = true →
  open_read w (recipes_file_of w) = Ok file_text →
  include_sweets_of w = false →
  (∃ u e, u ∈ http_lines (iter_lines file_text) ∧ urlparse w u = Raise e) →
  ∃ u e, u ∈ http_lines (iter_lines file_text)
         ∧ urlparse w u = Raise e
         ∧ load_recipe_urls w = Raise e
         ∧ ∀ t, main w t = (Raise e, t).
Proof.
  intros He Ho Hi Hbad.
  destruct (drop_sweet_raises w _ Hbad) as (u & e & Hin & Hu & Hd).
  exists u, e.
  assert (load_recipe_urls w = Raise e) as Hl.
  { rewrite (load_recipe_urls_without_sweets w _ (candidate_urls_file w file_text He Ho) Hi).
    by rewrite Hd. }
  split_and!; [done | done | done |]. intros t. by rewrite main_run, Hl.
Qed.

Lemma malformed_url_aborts_the_run_witness :
  let file_text := "http://a.example/chicken" +:+ nl +:+ "http://[a.example/stew" +:+ nl in
  let w := offline_world [] (Some file_text) in
  main w [] = (Raise (ValueError "Invalid IPv6 URL"), []).
Proof.
  intros file_text w.
  destruct (malformed_url_aborts_the_run w file_text) as (u & e & _ & _ & Hl & Hmain).
  - vm_compute. reflexivity.
  - vm_compute. reflexivity.
  - vm_compute. reflexivity.
  - exists "http://[a.example/stew", (ValueError "Invalid IPv6 URL"). split.
    + apply list_elem_of_In. vm_compute. tauto.
    + vm_compute. reflexivity.
  - rewrite Hmain. f_equal. assert (load_recipe_urls w = Raise (ValueError "Invalid IPv6 URL")) as Hl'
      by (vm_compute; reflexivity).
    rewrite Hl in Hl'. by injection Hl' as ->.
Defined.



(** ** More on the URL list *)

Section UrlList.
Import PyStr.
Implicit Types (l : list string) (u : string) (f : string → bool).

Lemma filter_ne_absent u l : u ∉ l → filter (λ v, v ≠ u) l = l.
Proof.
  induction l as [|x l IH]; [done|]. intros Hnin. rewrite filter_cons.
  destruct (decide (x ≠ u)) as [_|Heq].
  - rewrite IH; [done|]. intros Hin. apply Hnin. by right.
  - exfalso. apply Hnin. apply dec_stable in Heq. subst. by left.
Qed.

Lemma first_occurrences_NoDup_id l : NoDup l → first_occurrences l = l.
Proof.
  induction 1 as [|u l Hnin Hnd IH]; [done|]. simpl.
  by rewrite IH, filter_ne_absent.
Qed.

Lemma List_filter_filter_ne f u l :
  List.filter f (filter (λ v, v ≠ u) l) = filter (λ v, v ≠ u) (List.filter f l).
Proof.
  induction l as [|x l IH]; [done|]. rewrite filter_cons. simpl.
  destruct (decide (x ≠ u)), (f x) eqn:Hf; simpl; rewrite ?Hf, ?filter_cons;
    repeat case_decide; try done; by rewrite IH.
Qed.

Lemma List_filter_drops_anyway f u l :
  f u = false → List.filter f (filter (λ v, v ≠ u) l) = List.filter f l.
Proof.
  intros Hu. induction l as [|x l IH]; [done|]. rewrite filter_cons. simpl.
  destruct (decide (x ≠ u)) as [_|Heq]; simpl.
  - by rewrite IH.
  - apply dec_stable in Heq. subst. by rewrite Hu.
Qed.

Lemma first_occurrences_filter f l :
  first_occurrences (List.filter f l) = List.filter f (first_occurrences l).
Proof.
  induction l as [|u l IH]; [done|]. simpl. destruct (f u) eqn:Hu; simpl.
  - by rewrite ?Hu, IH, List_filter_filter_ne.
  - by rewrite ?Hu, IH, List_filter_drops_anyway.
Qed.

End UrlList.

(** X16.  De-duplicating twice is de-duplicating once; a list without
    repetition is returned as it is; the result is never longer than the
    input. *)
Theorem dedupe_idempotent (urls : list string) :
  dedupe (dedupe urls) = dedupe urls
  ∧ (NoDup urls → dedupe urls = urls)
  ∧ (length (dedupe urls) ≤ length urls)%nat.
Proof.
  rewrite !dedupe_eq. split_and!.
  - apply first_occurrences_NoDup_id, first_occurrences_NoDup.
  - apply first_occurrences_NoDup_id.
  - apply sublist_length, first_occurrences_sublist.
Qed.

(** X17.  Filtering and de-duplicating commute: dropping the URLs a test
    rejects and then removing later copies gives the same list as removing
    later copies first.  So the loader's result is the de-duplicated list
    of candidates with the dessert links taken out. *)
Theorem dedupe_commutes_with_filter (keep : string → bool) (urls : list string) :
  dedupe (List.filter keep urls) = List.filter keep (dedupe urls).
Proof. rewrite !dedupe_eq. apply first_occurrences_filter. Qed.



(** X19.  When the server accepts the connection and EHLO and refuses
    STARTTLS, [send_email] sends neither the password nor the message: it
    sends QUIT and raises the refusal, or what QUIT raised if QUIT fails
    too. *)
Theorem send_email_starttls_refused
    (w : world) (body : string) (t : trace) (port : Z) (e : exn) :
  PyStr.truthy (email_user_of w) = true →
  PyStr.truthy (email_pass_of w) = true →
  PyStr.truthy (email_to_of w) = true →
  smtp_port_of w = Ok port →
  email_policy w (message_of w body) = None →
  let connect := SmtpConnect (smtp_host_of w) port in
  smtp w t connect = Ok tt →
  smtp w (t ++ [ESmtp connect]) SmtpEhlo = Ok tt →
  smtp w ((t ++ [ESmtp connect]) ++ [ESmtp SmtpEhlo]) SmtpStartTls = Raise e →
  send_email w body t
  = (match smtp w (((t ++ [ESmtp connect]) ++ [ESmtp SmtpEhlo]) ++ [ESmtp SmtpStartTls])
             SmtpQuit with
     | Ok _ => Raise e
     | Raise e' => Raise e'
     end,
     t ++ map ESmtp [connect; SmtpEhlo; SmtpStartTls; SmtpQuit]).
Proof.
  intros Hu Hp Hto Hport Hpol connect Hc He Hs.
  rewrite send_email_run, Hu, Hp, Hto, Hport, Hpol. cbn zeta. cbn [andb negb].
  fold connect. rewrite Hc. unfold smtp_session. cbn [run_commands].
  rewrite He, Hs. cbn [fst snd map]. rewrite <- !app_assoc. reflexivity.
Qed.

Lemma send_email_starttls_refused_witness :
  let w := no_tls_world [("EMAIL_USER", "cook@a.example"); ("EMAIL_PASS", "secret");
                         ("EMAIL_TO", "family@a.example")] in
  send_email w "Hello" []
  = (Raise (LibraryError "STARTTLS extension not supported by server."),
     map ESmtp [SmtpConnect "smtp.gmail.com" 587; SmtpEhlo; SmtpStartTls; SmtpQuit]).
Proof.
  intros w.
  apply (send_email_starttls_refused w "Hello" [] 587
           (LibraryError "STARTTLS extension not supported by server."));
    vm_compute; reflexivity.
Defined.
